(** * Indodax MCP server: a shallow embedding of [server.py]

    The development follows the layout of the source file:
    - the library primitives the module calls ([hashlib.sha512], [hmac],
      [urllib.parse.urlencode], [httpx]) modelled from their documented
      behaviour;
    - module initialisation (credentials read from the environment);
    - the two HTTP utilities [_private_post] and [_public_get];
    - the tool adapters, one per decorated function;
    - the properties of the specification.

    Conventions.  A Python [str] is represented by the byte string of its
    UTF-8 encoding (a Rocq [string]); [bytes] are lists of integers in
    [0, 256).  Python dictionaries keep insertion order and are mutable
    objects: they live in a heap and are passed by reference. *)

From Stdlib Require Import ZArith String Ascii List Lia Floats.
From stdpp Require Import base option list gmap strings.

Local Open Scope string_scope.
Local Open Scope list_scope.
Local Open Scope Z_scope.

(** ** Bytes and text *)

Definition bytes := list Z.

(** [str.encode()] with the default codec: on the UTF-8 representation it
    reads the code units off as integers. *)
Definition encode (s : string) : bytes :=
  map (fun c => Z.of_N (N_of_ascii c)) (list_ascii_of_string s).

(** [bytes.decode()] of a byte string; used only on ASCII output. *)
Definition decode (b : bytes) : string :=
  string_of_list_ascii (map (fun x => ascii_of_N (Z.to_N x)) b).

(** ** SHA-512 (FIPS 180-4), on 64-bit words held in [Z] *)
Module SHA512.

Definition mask64 : Z := 2 ^ 64 - 1.
Definition w64 (x : Z) : Z := Z.land x mask64.
Definition add64 (x y : Z) : Z := w64 (x + y).
Definition rotr (n x : Z) : Z :=
  Z.lor (Z.shiftr x n) (w64 (Z.shiftl x (64 - n))).
Definition shr (n x : Z) : Z := Z.shiftr x n.
Definition not64 (x : Z) : Z := Z.lxor x mask64.

Definition Ch (x y z : Z) : Z := Z.lxor (Z.land x y) (Z.land (not64 x) z).
Definition Maj (x y z : Z) : Z :=
  Z.lxor (Z.lxor (Z.land x y) (Z.land x z)) (Z.land y z).
Definition Sigma0 (x : Z) : Z := Z.lxor (Z.lxor (rotr 28 x) (rotr 34 x)) (rotr 39 x).
Definition Sigma1 (x : Z) : Z := Z.lxor (Z.lxor (rotr 14 x) (rotr 18 x)) (rotr 41 x).
Definition sigma0 (x : Z) : Z := Z.lxor (Z.lxor (rotr 1 x) (rotr 8 x)) (shr 7 x).
Definition sigma1 (x : Z) : Z := Z.lxor (Z.lxor (rotr 19 x) (rotr 61 x)) (shr 6 x).

Definition K : list Z :=
  [ 
    0x428a2f98d728ae22; 0x7137449123ef65cd; 0xb5c0fbcfec4d3b2f; 0xe9b5dba58189dbbc;
    0x3956c25bf348b538; 0x59f111f1b605d019; 0x923f82a4af194f9b; 0xab1c5ed5da6d8118;
    0xd807aa98a3030242; 0x12835b0145706fbe; 0x243185be4ee4b28c; 0x550c7dc3d5ffb4e2;
    0x72be5d74f27b896f; 0x80deb1fe3b1696b1; 0x9bdc06a725c71235; 0xc19bf174cf692694;
    0xe49b69c19ef14ad2; 0xefbe4786384f25e3; 0x0fc19dc68b8cd5b5; 0x240ca1cc77ac9c65;
    0x2de92c6f592b0275; 0x4a7484aa6ea6e483; 0x5cb0a9dcbd41fbd4; 0x76f988da831153b5;
    0x983e5152ee66dfab; 0xa831c66d2db43210; 0xb00327c898fb213f; 0xbf597fc7beef0ee4;
    0xc6e00bf33da88fc2; 0xd5a79147930aa725; 0x06ca6351e003826f; 0x142929670a0e6e70;
    0x27b70a8546d22ffc; 0x2e1b21385c26c926; 0x4d2c6dfc5ac42aed; 0x53380d139d95b3df;
    0x650a73548baf63de; 0x766a0abb3c77b2a8; 0x81c2c92e47edaee6; 0x92722c851482353b;
    0xa2bfe8a14cf10364; 0xa81a664bbc423001; 0xc24b8b70d0f89791; 0xc76c51a30654be30;
    0xd192e819d6ef5218; 0xd69906245565a910; 0xf40e35855771202a; 0x106aa07032bbd1b8;
    0x19a4c116b8d2d0c8; 0x1e376c085141ab53; 0x2748774cdf8eeb99; 0x34b0bcb5e19b48a8;
    0x391c0cb3c5c95a63; 0x4ed8aa4ae3418acb; 0x5b9cca4f7763e373; 0x682e6ff3d6b2b8a3;
    0x748f82ee5defb2fc; 0x78a5636f43172f60; 0x84c87814a1f0ab72; 0x8cc702081a6439ec;
    0x90befffa23631e28; 0xa4506cebde82bde9; 0xbef9a3f7b2c67915; 0xc67178f2e372532b;
    0xca273eceea26619c; 0xd186b8c721c0c207; 0xeada7dd6cde0eb1e; 0xf57d4f7fee6ed178;
    0x06f067aa72176fba; 0x0a637dc5a2c898a6; 0x113f9804bef90dae; 0x1b710b35131c471b;
    0x28db77f523047d84; 0x32caab7b40c72493; 0x3c9ebe0a15c9bebc; 0x431d67c49c100d4c;
    0x4cc5d4becb3e42b6; 0x597f299cfc657e2a; 0x5fcb6fab3ad6faec; 0x6c44198c4a475817
  ].

Definition H0 : list Z :=
  [ 0x6a09e667f3bcc908; 0xbb67ae8584caa73b; 0x3c6ef372fe94f82b; 0xa54ff53a5f1d36f1; 0x510e527fade682d1; 0x9b05688c2b3e6c1f; 0x1f83d9abfb41bd6b; 0x5be0cd19137e2179 ].

(** Big-endian encoding of [n] on [w] bytes, and its inverse. *)
Definition be_bytes (w : nat) (n : Z) : bytes :=
  map (fun i => (n / 256 ^ Z.of_nat (w - 1 - i)) mod 256) (seq 0 w).

Definition be_word (b : bytes) : Z :=
  fold_left (fun acc x => acc * 256 + x) b 0.

(** Padding: a 1 bit, zeros, then the bit length on 128 bits; the result
    is a whole number of 128-byte blocks. *)
Definition pad (msg : bytes) : bytes :=
  let len := Z.of_nat (length msg) in
  let zeros := Z.to_nat ((- (len + 17)) mod 128) in
  msg ++ 128 :: repeat 0 zeros ++ be_bytes 16 (8 * len).

Fixpoint chunks {A} (n : nat) (fuel : nat) (l : list A) : list (list A) :=
  match fuel with
  | O => []
  | S fuel' =>
      match l with
      | [] => []
      | _ => firstn n l :: chunks n fuel' (skipn n l)
      end
  end.

Definition words_of_block (blk : bytes) : list Z :=
  map be_word (chunks 8 16 blk).

Definition blocks (msg : bytes) : list (list Z) :=
  let p := pad msg in
  map words_of_block (chunks 128 (length p) p).

(** The eight working variables. *)
Record regs := Regs { ra : Z; rb : Z; rc : Z; rd : Z; re : Z; rf : Z; rg : Z; rh : Z }.

Definition regs_of_list (l : list Z) : regs :=
  Regs (nth 0 l 0) (nth 1 l 0) (nth 2 l 0) (nth 3 l 0)
       (nth 4 l 0) (nth 5 l 0) (nth 6 l 0) (nth 7 l 0).

Definition list_of_regs (r : regs) : list Z :=
  [ra r; rb r; rc r; rd r; re r; rf r; rg r; rh r].

(** One round.  The message schedule is kept as a window of the sixteen
    most recent words, oldest first: its head is W[t]. *)
Definition round (st : regs * list Z) (k : Z) : regs * list Z :=
  let '(r, w) := st in
  let wt := nth 0 w 0 in
  let t1 := add64 (add64 (add64 (add64 (rh r) (Sigma1 (re r))) (Ch (re r) (rf r) (rg r))) k) wt in
  let t2 := add64 (Sigma0 (ra r)) (Maj (ra r) (rb r) (rc r)) in
  let next := add64 (add64 (add64 (sigma1 (nth 14 w 0)) (nth 9 w 0)) (sigma0 (nth 1 w 0))) wt in
  (Regs (add64 t1 t2) (ra r) (rb r) (rc r) (add64 (rd r) t1) (re r) (rf r) (rg r),
   tl w ++ [next]).

Definition compress (h : list Z) (blk : list Z) : list Z :=
  let '(r, _) := fold_left round K (regs_of_list h, blk) in
  map (fun p => add64 (fst p) (snd p)) (combine h (list_of_regs r)).

Definition digest (msg : bytes) : bytes :=
  flat_map (be_bytes 8) (fold_left compress (blocks msg) H0).

Definition block_size : nat := 128.

End SHA512.

(** ** HMAC (RFC 2104) over SHA-512, as [hmac.new(key, msg, hashlib.sha512)] *)
Module HMAC.

Definition normalize_key (key : bytes) : bytes :=
  let k := if (SHA512.block_size <? length key)%nat then SHA512.digest key else key in
  k ++ repeat 0 (SHA512.block_size - length k).

Definition xor_pad (c : Z) (key : bytes) : bytes := map (Z.lxor c) key.

Definition digest (key msg : bytes) : bytes :=
  let k := normalize_key key in
  SHA512.digest (xor_pad 92 k ++ SHA512.digest (xor_pad 54 k ++ msg)).

Definition hex_digit (n : Z) : ascii :=
  nth (Z.to_nat n) (list_ascii_of_string "0123456789abcdef") "0"%char.

(** [bytes.hex()]: two lower-case digits per byte. *)
Definition hex (b : bytes) : string :=
  string_of_list_ascii (flat_map (fun x => [hex_digit (x / 16); hex_digit (x mod 16)]) b).

Definition hexdigest (key msg : bytes) : string := hex (digest key msg).

End HMAC.

(** ** Python values and dictionaries *)

(** The scalars a tool adapter stores in a payload: [str], [int], [float]. *)
Inductive value :=
  | VStr (s : string)
  | VInt (n : Z)
  | VFloat (f : float).

(** A [dict] keeps its keys unique and in insertion order. *)
Definition pydict := list (string * value).

Fixpoint dict_contains (k : string) (d : pydict) : bool :=
  match d with
  | [] => false
  | (k', _) :: d' => if String.eqb k k' then true else dict_contains k d'
  end.

Fixpoint dict_get (k : string) (d : pydict) : option value :=
  match d with
  | [] => None
  | (k', v) :: d' => if String.eqb k k' then Some v else dict_get k d'
  end.

(** [d[k] = v]: an existing key keeps its position, a new key goes last. *)
Fixpoint dict_setitem (k : string) (v : value) (d : pydict) : pydict :=
  match d with
  | [] => [(k, v)]
  | (k', v') :: d' =>
      if String.eqb k k' then (k', v) :: d' else (k', v') :: dict_setitem k v d'
  end.

(** A dict display [{k1: v1, ...}]: the items are stored left to right. *)
Definition dict_of (items : list (string * value)) : pydict :=
  fold_left (fun d kv => dict_setitem (fst kv) (snd kv) d) items [].

(** Truthiness of an [Optional[str]]: [None] and [""] are false. *)
Definition truthy (o : option string) : bool :=
  match o with
  | Some s => negb (String.eqb s "")
  | None => false
  end.

(** [a or b] on optional strings. *)
Definition py_or (a b : option string) : option string :=
  if truthy a then a else b.

(** ** Exceptions *)

Inductive exn :=
  | RuntimeError (msg : string)
  | ValueError
  | OverflowError
  | UnicodeEncodeError
  | InvalidURL
  | HTTPStatusError (status : Z)
  | TransportError
  | JSONDecodeError
  | InvalidReference.

Inductive result (A : Type) :=
  | Return (a : A)
  | Raise (e : exn).
Arguments Return {A} a.
Arguments Raise {A} e.

(** ** [str] of an [int], and [int] of a [float] *)

Fixpoint digits_go (fuel : nat) (n : Z) (acc : string) : string :=
  match fuel with
  | O => acc
  | S fuel' =>
      let acc' := String (ascii_of_N (Z.to_N (48 + n mod 10))) acc in
      if n / 10 =? 0 then acc' else digits_go fuel' (n / 10) acc'
  end.

Definition digits (n : Z) : string :=
  digits_go (S (Z.to_nat (Z.log2 n))) n "".

(** The decimal numeral of an integer. *)
Definition decimal (n : Z) : string :=
  if n <? 0 then "-" +:+ digits (- n) else digits n.

(** [sys.get_int_max_str_digits()], at its default. *)
Definition int_max_str_digits : Z := 4300.

(** [str(n)]: the decimal numeral; [ValueError] when it would have more
    than [int_max_str_digits] digits (the sign is not counted). *)
Definition str_of_int (n : Z) : result string :=
  if 10 ^ int_max_str_digits <=? Z.abs n then Raise ValueError
  else Return (decimal n).

(** [int(x)] truncates towards zero; it raises on an infinity
    ([OverflowError]) and on a NaN ([ValueError]). *)

Definition int_of_float (x : float) : result Z :=
  match Prim2SF x with
  | S754_zero _ => Return 0
  | S754_finite s m e =>
      let a := if 0 <=? e then Z.pos m * 2 ^ e else Z.pos m / 2 ^ (- e) in
      Return (if s then - a else a)
  | S754_infinity _ => Raise OverflowError
  | S754_nan => Raise ValueError
  end.

(** ** [repr] of a [float]: the shortest numeral that reads back as it *)
Module PyFloat.

(** Comparison of [a * 10^k] with [b * 2^f]. *)
Definition cmp_dec_bin (a k b f : Z) : comparison :=
  (a * 10 ^ Z.max k 0 * 2 ^ Z.max (- f) 0
   ?= b * 2 ^ Z.max f 0 * 10 ^ Z.max (- k) 0).

(** The integer part of [b * 2^f / 10^k]. *)
Definition floor_bin_dec (b f k : Z) : Z :=
  (b * 2 ^ Z.max f 0 * 10 ^ Z.max (- k) 0)
  / (2 ^ Z.max (- f) 0 * 10 ^ Z.max k 0).

(** The decimal exponent [E] of [m * 2^e]: [10^E <= m * 2^e < 10^(E+1)],
    from an estimate corrected by at most [fuel] steps each way. *)
Fixpoint exponent_up (fuel : nat) (E m e : Z) : Z :=
  match fuel with
  | O => E
  | S fuel' =>
      match cmp_dec_bin 1 (E + 1) m e with
      | Gt => E
      | _ => exponent_up fuel' (E + 1) m e
      end
  end.

Fixpoint exponent_down (fuel : nat) (E m e : Z) : Z :=
  match fuel with
  | O => E
  | S fuel' =>
      match cmp_dec_bin 1 E m e with
      | Gt => exponent_down fuel' (E - 1) m e
      | _ => E
      end
  end.

Definition decimal_exponent (m e : Z) : Z :=
  let E0 := (Z.log2 m + e) * 30103 / 100000 in
  exponent_up 4 (exponent_down 4 E0 m e) m e.

(** The shortest digits: for [n = 1, 2, ...] significant digits, the two
    [n]-digit neighbours of [m * 2^e] are tried; one is taken when it lies
    in the rounding interval of the double (ends included when [m] is
    even), the nearer when both do. *)
Fixpoint shortest (fuel : nat) (n : Z) (m e E : Z) : Z * Z :=
  let f := e - 2 in
  let k := E - n + 1 in
  let below := floor_bin_dec (4 * m) f k in
  let above := below + 1 in
  match fuel with
  | O => (below, k)
  | S fuel' =>
      let even := Z.even m in
      let low := if (m =? 2 ^ 52) && (-1074 <? e) then 4 * m - 1 else 4 * m - 2 in
      let high := 4 * m + 2 in
      let below_ok :=
        match cmp_dec_bin below k low f with
        | Gt => true
        | Eq => even
        | Lt => false
        end in
      let above_ok :=
        match cmp_dec_bin above k high f with
        | Lt => true
        | Eq => even
        | Gt => false
        end in
      if below_ok && above_ok then
        match cmp_dec_bin (2 * below + 1) k (8 * m) f with
        | Gt => (below, k)
        | Lt => (above, k)
        | Eq => if Z.even below then (below, k) else (above, k)
        end
      else if below_ok then (below, k)
      else if above_ok then (above, k)
      else shortest fuel' (n + 1) m e E
  end.

Fixpoint strip_zeros (fuel : nat) (d k : Z) : Z * Z :=
  match fuel with
  | O => (d, k)
  | S fuel' =>
      if (d mod 10 =? 0) && negb (d =? 0) then strip_zeros fuel' (d / 10) (k + 1)
      else (d, k)
  end.

Definition zeros (n : Z) : string :=
  string_of_list_ascii (repeat "0"%char (Z.to_nat n)).

(** The layout of [repr]: plain notation when the decimal point falls
    within [-4 < decpt <= 16], exponent notation otherwise. *)
Definition layout (ds : string) (decpt : Z) : string :=
  let n := Z.of_nat (String.length ds) in
  if (decpt <=? -4) || (16 <? decpt) then
    let x := decpt - 1 in
    let mant :=
      match ds with
      | String c EmptyString => String c EmptyString
      | String c rest => String c ("." +:+ rest)
      | EmptyString => EmptyString
      end in
    let ex := decimal (Z.abs x) in
    mant +:+ "e" +:+ (if x <? 0 then "-" else "+")
         +:+ (if Z.abs x <? 10 then "0" else "") +:+ ex
  else if decpt <=? 0 then "0." +:+ zeros (- decpt) +:+ ds
  else if n <=? decpt then ds +:+ zeros (decpt - n) +:+ ".0"
  else substring 0 (Z.to_nat decpt) ds +:+ "."
       +:+ substring (Z.to_nat decpt) (Z.to_nat (n - decpt)) ds.

Definition repr (x : float) : string :=
  match Prim2SF x with
  | S754_zero s => if s then "-0.0" else "0.0"
  | S754_infinity s => if s then "-inf" else "inf"
  | S754_nan => "nan"
  | S754_finite s m e =>
      let E := decimal_exponent (Z.pos m) e in
      let '(d, k) := shortest 17 1 (Z.pos m) e E in
      let '(d, k) := strip_zeros 20 d k in
      let ds := decimal d in
      (if s then "-" else "") +:+ layout ds (Z.of_nat (String.length ds) + k)
  end.

End PyFloat.

(** ** [urllib.parse]: [quote], [quote_plus], [urlencode] *)

Definition is_alnum (c : ascii) : bool :=
  let n := N_of_ascii c in
  ((48 <=? n) && (n <=? 57) || (65 <=? n) && (n <=? 90) || (97 <=? n) && (n <=? 122))%N.

(** Characters never quoted: letters, digits and [_.-~]. *)
Definition always_safe (c : ascii) : bool :=
  is_alnum c || existsb (Ascii.eqb c) (list_ascii_of_string "_.-~").

Definition HEX_digit (n : N) : ascii :=
  nth (N.to_nat n) (list_ascii_of_string "0123456789ABCDEF") "0"%char.

Definition quoter (safe : string) (c : ascii) : string :=
  if always_safe c || existsb (Ascii.eqb c) (list_ascii_of_string safe)
  then String c ""
  else String "%" (String (HEX_digit (N_of_ascii c / 16)) (String (HEX_digit (N_of_ascii c mod 16)) "")).

Definition quote (s : string) (safe : string) : string :=
  String.concat "" (map (quoter safe) (list_ascii_of_string s)).

Definition has_space (s : string) : bool :=
  existsb (Ascii.eqb " ") (list_ascii_of_string s).

Definition replace_space (s : string) : string :=
  string_of_list_ascii
    (map (fun c => if Ascii.eqb c " " then "+"%char else c) (list_ascii_of_string s)).

(** [quote_plus(s)]: as [quote], with spaces sent as [+]. *)
Definition quote_plus (s : string) : string :=
  if has_space s then replace_space (quote s " ") else quote s "".

(** ** The wire: requests, responses, the remote side *)

#[local] Set Warnings "-register-all".
Inductive json :=
  | JNull
  | JBool (b : bool)
  | JNumber (literal : string)
  | JString (s : string)
  | JArray (items : list json)
  | JObject (members : list (string * json)).

Inductive http_method := GET | POST.

Record request := Request {
  req_method : http_method;
  req_url : string;
  req_headers : list (string * string);
  req_content : bytes
}.

(** A response as the client sees it: the status line, and what
    [response.json()] makes of the body ([None]: not a JSON document). *)
Record response := Response {
  status_code : Z;
  json_body : option json
}.

(** What comes back for a request: a response, or no response at all
    (DNS, connection, TLS or timeout failure). *)
Inductive outcome :=
  | Responded (r : response)
  | Unreachable.

(** Everything outside the process that a call observes: the wall clock
    ([time.time()], seconds) and the remote servers. *)
Record world := World {
  clock : float;
  remote : request -> outcome
}.

(** ** The process state: the heap of dictionaries and the requests sent *)

Definition loc := nat.

Record state := State {
  heap : gmap loc pydict;
  wire : list request
}.

(** Computations: state passing with exceptions. *)
Definition M (A : Type) : Type := state -> result A * state.

Definition ret {A} (a : A) : M A := fun s => (Return a, s).
Definition raise {A} (e : exn) : M A := fun s => (Raise e, s).
Definition bind {A B} (m : M A) (k : A -> M B) : M B :=
  fun s =>
    match m s with
    | (Return a, s') => k a s'
    | (Raise e, s') => (Raise e, s')
    end.
Definition lift {A} (r : result A) : M A := fun s => (r, s).

Notation "'let*' x ':=' m 'in' k" := (bind m (fun x => k))
  (at level 10, x name, m at level 100, k at level 200, only parsing).
Notation "'run' m 'in' k" := (bind m (fun _ => k))
  (at level 10, m at level 100, k at level 200, only parsing).

Definition load (l : loc) : M pydict :=
  fun s =>
    match heap s !! l with
    | Some d => (Return d, s)
    | None => (Raise InvalidReference, s)
    end.

(** [obj[k] = v] on the dictionary stored at [l]. *)
Definition setitem (l : loc) (k : string) (v : value) : M unit :=
  fun s =>
    match heap s !! l with
    | Some d => (Return tt, State (<[l := dict_setitem k v d]> (heap s)) (wire s))
    | None => (Raise InvalidReference, s)
    end.

(** A dict display allocates a new object. *)
Definition new_dict (items : list (string * value)) : M loc :=
  fun s =>
    let l := fresh (dom (heap s)) in
    (Return l, State (<[l := dict_of items]> (heap s)) (wire s)).

(** ** What the HTTP client checks before it sends *)

Definition is_ascii (s : string) : bool :=
  forallb (fun c => (N_of_ascii c <? 128)%N) (list_ascii_of_string s).

(** The length of a text in characters: the bytes of its UTF-8 encoding
    that do not continue a character (those outside [0x80, 0xC0)). *)
Definition char_length (s : string) : nat :=
  length (filter (fun c => negb ((128 <=? N_of_ascii c) && (N_of_ascii c <? 192))%N)
            (list_ascii_of_string s)).

(** An ASCII control character: below the space, or DEL. *)
Definition is_control (c : ascii) : bool :=
  ((N_of_ascii c <? 32) || (N_of_ascii c =? 127))%N.

Definition MAX_URL_LENGTH : Z := 65536.

(** The URL parser refuses a URL longer than [MAX_URL_LENGTH] characters
    and one that holds an ASCII control character. *)
Definition valid_url (url : string) : bool :=
  (Z.of_nat (char_length url) <=? MAX_URL_LENGTH)
  && negb (existsb is_control (list_ascii_of_string url)).

(** Header names and values are encoded as ASCII. *)
Definition encodable_headers (hs : list (string * string)) : bool :=
  forallb (fun h => is_ascii (fst h) && is_ascii (snd h)) hs.

(** One exchange with the remote side.  The client first builds the
    request: it raises [InvalidURL] on a URL it refuses and
    [UnicodeEncodeError] on a header it cannot encode, and then nothing is
    sent.  A request that was built is put on the wire whether or not an
    answer comes back. *)
Definition send (w : world) (req : request) : M response :=
  fun s =>
    if negb (valid_url (req_url req)) then (Raise InvalidURL, s)
    else if negb (encodable_headers (req_headers req)) then
      (Raise UnicodeEncodeError, s)
    else
      let s' := State (heap s) (wire s ++ [req]) in
      match remote w req with
      | Responded r => (Return r, s')
      | Unreachable => (Raise TransportError, s')
      end.

(** [Response.is_success] and [Response.raise_for_status()]. *)
Definition is_success (r : response) : bool :=
  (200 <=? status_code r) && (status_code r <=? 299).

Definition raise_for_status (r : response) : M unit :=
  if is_success r then ret tt else raise (HTTPStatusError (status_code r)).

(** [Response.json()]. *)
Definition response_json (r : response) : M json :=
  match json_body r with
  | Some j => ret j
  | None => raise JSONDecodeError
  end.

(** [if x:] on an [Optional[str]] and [if x is not None:]. *)
Definition if_truthy (o : option string) (body : string -> M unit) : M unit :=
  match o with
  | Some s => if truthy (Some s) then body s else ret tt
  | None => ret tt
  end.

Definition if_not_None {A} (o : option A) (body : A -> M unit) : M unit :=
  match o with
  | Some a => body a
  | None => ret tt
  end.

(** The requests a computation adds to the wire. *)
Definition sent_by {A} (m : M A) (s : state) : list request :=
  drop (length (wire s)) (wire (snd (m s))).

(** Header lookup by name. *)
Fixpoint header (name : string) (hs : list (string * string)) : option string :=
  match hs with
  | [] => None
  | (n, v) :: hs' => if String.eqb name n then Some v else header name hs'
  end.

(** ** Environment and global initialisation *)

Definition environ := gmap string string.

(** [load_dotenv()]: entries of the [.env] file are added to the process
    environment; a variable already set keeps its value. *)
Definition load_dotenv (dotenv : environ) (env : environ) : environ :=
  env ∪ dotenv.

Definition getenv (env : environ) (name : string) : option string :=
  env !! name.

Record credentials := Credentials {
  API_KEY : string;
  API_SECRET : string
}.

(** The module after a successful import: the credentials and the tools
    registered on the FastMCP instance. *)
Record server := Server {
  creds : credentials;
  tools : list string
}.

Definition tool_names : list string :=
  [ "server_time"; "pairs"; "price_increments"; "summaries"; "ticker";
    "ticker_all"; "trades"; "get_info"; "trans_history"; "trade";
    "trade_history"; "open_orders"; "order_history"; "get_order";
    "get_order_by_client_order_id"; "cancel_order";
    "cancel_by_client_order_id"; "withdraw_fee"; "withdraw_coin";
    "list_downline"; "check_downline"; "create_voucher" ].

(** Lines 50-63 and the decorators below them: the credentials are read
    and checked before the FastMCP instance exists. *)
Definition module_init (dotenv env : environ) : result server :=
  let env := load_dotenv dotenv env in
  let api_key := getenv env "INDODAX_API_KEY" in
  let api_secret :=
    py_or (getenv env "INDODAX_API_SECRET") (getenv env "INDODAX_SECRET_KEY") in
  if negb (truthy api_key) || negb (truthy api_secret) then
    Raise (RuntimeError
      "Please set INDODAX_API_KEY and INDODAX_API_SECRET (or INDODAX_SECRET_KEY) in environment or .env file")
  else
    (* past the guard both are non-empty strings *)
    Return (Server (Credentials (default "" api_key) (default "" api_secret)) tool_names).

Definition INDODAX_API_URL : string := "https://indodax.com/tapi".
Definition PUBLIC_API_BASE : string := "https://indodax.com/api".


(** An environment variable that is not set, or set to the empty string. *)
Definition absent_or_empty (o : option string) : Prop :=
  o = None \/ o = Some "".

(** ** A concrete interpreter, world and state for the closed examples *)
Module Sample.

(** The interpreter's [repr]. *)
Definition float_repr : float -> string := PyFloat.repr.

Definition cfg : credentials := Credentials "key" "s3cr3t".

(** A remote side that answers every request with [status] and [{}]. *)
Definition answering (status : Z) : world :=
  World 1700000000.5%float (fun _ => Responded (Response status (Some (JObject [])))).

Definition getInfo_nonce : pydict := [("method", VStr "getInfo"); ("nonce", VStr "1")].
Definition getInfo_bare : pydict := [("method", VStr "getInfo")].

(** A heap holding one dictionary, at address 0; nothing sent yet. *)
Definition holding (d : pydict) : state := State {[ 0%nat := d ]} [].

Definition empty : state := State ∅ [].

(** A remote side that never answers. *)
Definition silent : world :=
  World 1700000000.5%float (fun _ => Unreachable).

(** A remote side that answers 200 with a body that is not JSON. *)
Definition garbled : world :=
  World 1700000000.5%float (fun _ => Responded (Response 200 None)).


End Sample.
Section Server.

(** [repr] of a float (the shortest string that reads back as the same
    double); supplied by the interpreter. *)
Variable float_repr : float -> string.

Definition py_str (v : value) : result string :=
  match v with
  | VStr s => Return s
  | VInt n => str_of_int n
  | VFloat f => Return (float_repr f)
  end.

(** The loop of [urlencode] over the items: each gives [k=v], key and
    value sent through [quote_plus]; [str(v)] may raise. *)
Fixpoint urlencode_items (d : pydict) : result (list string) :=
  match d with
  | [] => Return []
  | (k, v) :: d' =>
      match py_str v with
      | Raise e => Raise e
      | Return sv =>
          match urlencode_items d' with
          | Raise e => Raise e
          | Return l => Return ((quote_plus k +:+ "=" +:+ quote_plus sv) :: l)
          end
      end
  end.

(** [urlencode(d)] for a dict of scalars: the items joined by [&]. *)
Definition urlencode (d : pydict) : result string :=
  match urlencode_items d with
  | Return l => Return (String.concat "&" l)
  | Raise e => Raise e
  end.

Variable cfg : credentials.
Variable w : world.

(** ** HTTP utility *)

Definition _private_post (payload : loc) : M json :=
  let* d := load payload in
  run (if negb (dict_contains "timestamp" d) && negb (dict_contains "nonce" d)
       then
         let* ms := lift (int_of_float (clock w * 1000)%float) in
         setitem payload "timestamp" (VInt ms)
       else ret tt) in
  let* d := load payload in
  let* body := lift (urlencode d) in
  let sign := HMAC.hexdigest (encode (API_SECRET cfg)) (encode body) in
  let headers :=
    [ ("Key", API_KEY cfg);
      ("Sign", sign);
      ("Content-Type", "application/x-www-form-urlencoded") ] in
  let* response := send w (Request POST INDODAX_API_URL headers (encode body)) in
  run raise_for_status response in
  response_json response.

(** ** Public REST API tools (no auth required) *)

Definition _public_get (path : string) : M json :=
  let url := PUBLIC_API_BASE +:+ "/" +:+ path in
  let* resp := send w (Request GET url [] []) in
  run raise_for_status resp in
  response_json resp.

Definition server_time : M json := _public_get "server_time".
Definition pairs : M json := _public_get "pairs".
Definition price_increments : M json := _public_get "price_increments".
Definition summaries : M json := _public_get "summaries".

Definition ticker (pair_id : option string) : M json :=
  let path :=
    match pair_id with
    | Some s => if truthy (Some s) then "ticker/" +:+ s else "ticker"
    | None => "ticker"
    end in
  _public_get path.

Definition ticker_all : M json := _public_get "ticker_all".

Definition trades (pair_id : option string) : M json :=
  let path :=
    match pair_id with
    | Some s => if truthy (Some s) then "trades/" +:+ s else "trades"
    | None => "trades"
    end in
  _public_get path.

(** ** MCP tools, one per documented method parameter.

    An argument the caller may leave out is an [option]: [None] stands for
    "not supplied" (for a parameter whose default is [None], also for an
    explicit [None]); a default other than [None] is bound on entry. *)

Definition get_info : M json :=
  let* payload := new_dict [("method", VStr "getInfo")] in
  _private_post payload.

Definition trans_history (start end_ : option string) : M json :=
  let* payload := new_dict [("method", VStr "transHistory")] in
  run if_truthy start (fun s => setitem payload "start" (VStr s)) in
  run if_truthy end_ (fun s => setitem payload "end" (VStr s)) in
  _private_post payload.

Definition trade (pair type_ : string) (price : float) (idr crypto : option float) : M json :=
  let* payload :=
    new_dict [ ("method", VStr "trade"); ("pair", VStr pair);
               ("type", VStr type_); ("price", VFloat price) ] in
  run if_not_None idr (fun x => setitem payload "idr" (VFloat x)) in
  run if_not_None crypto (fun x => setitem payload "crypto" (VFloat x)) in
  _private_post payload.

Definition trade_history (pair : option string) (count : option Z)
    (from_id end_id : option Z) (order : option string) : M json :=
  let count := default 100 count in
  let order := default "desc" order in
  let* payload :=
    new_dict [ ("method", VStr "tradeHistory"); ("count", VInt count);
               ("order", VStr order) ] in
  run if_truthy pair (fun s => setitem payload "pair" (VStr s)) in
  run if_not_None from_id (fun n => setitem payload "from" (VInt n)) in
  run if_not_None end_id (fun n => setitem payload "end" (VInt n)) in
  _private_post payload.

Definition open_orders (pair : option string) : M json :=
  let* payload := new_dict [("method", VStr "openOrders")] in
  run if_truthy pair (fun s => setitem payload "pair" (VStr s)) in
  _private_post payload.

Definition order_history (pair : option string) (count : option Z)
    (from_id end_id : option Z) (order : option string) : M json :=
  let count := default 100 count in
  let order := default "desc" order in
  let* payload :=
    new_dict [ ("method", VStr "orderHistory"); ("count", VInt count);
               ("order", VStr order) ] in
  run if_truthy pair (fun s => setitem payload "pair" (VStr s)) in
  run if_not_None from_id (fun n => setitem payload "from" (VInt n)) in
  run if_not_None end_id (fun n => setitem payload "end" (VInt n)) in
  _private_post payload.

Definition get_order (order_id : Z) : M json :=
  let* payload := new_dict [("method", VStr "getOrder"); ("order_id", VInt order_id)] in
  _private_post payload.

Definition get_order_by_client_order_id (client_order_id : string) : M json :=
  let* payload :=
    new_dict [ ("method", VStr "getOrderByClientOrderId");
               ("client_order_id", VStr client_order_id) ] in
  _private_post payload.

Definition cancel_order (order_id : Z) : M json :=
  let* payload := new_dict [("method", VStr "cancelOrder"); ("order_id", VInt order_id)] in
  _private_post payload.

Definition cancel_by_client_order_id (client_order_id : string) : M json :=
  let* payload :=
    new_dict [ ("method", VStr "cancelByClientOrderId");
               ("client_order_id", VStr client_order_id) ] in
  _private_post payload.

Definition withdraw_fee (currency : string) (amount : float) (address : string)
    (network : option string) : M json :=
  let* payload :=
    new_dict [ ("method", VStr "withdrawFee"); ("currency", VStr currency);
               ("amount", VFloat amount); ("address", VStr address) ] in
  run if_truthy network (fun s => setitem payload "network" (VStr s)) in
  _private_post payload.

Definition withdraw_coin (currency : string) (amount : float) (address : string)
    (network memo : option string) : M json :=
  let* payload :=
    new_dict [ ("method", VStr "withdrawCoin"); ("currency", VStr currency);
               ("amount", VFloat amount); ("address", VStr address) ] in
  run if_truthy network (fun s => setitem payload "network" (VStr s)) in
  run if_truthy memo (fun s => setitem payload "memo" (VStr s)) in
  _private_post payload.

Definition list_downline : M json :=
  let* payload := new_dict [("method", VStr "listDownline")] in
  _private_post payload.

Definition check_downline (username : string) : M json :=
  let* payload := new_dict [("method", VStr "checkDownline"); ("username", VStr username)] in
  _private_post payload.

Definition create_voucher (amount : float) (description : option string) : M json :=
  let* payload := new_dict [("method", VStr "createVoucher"); ("amount", VFloat amount)] in
  run if_truthy description (fun s => setitem payload "description" (VStr s)) in
  _private_post payload.

(** ** Tool invocation: a registered tool applied to its arguments *)

Inductive tool_call :=
  | Call_server_time
  | Call_pairs
  | Call_price_increments
  | Call_summaries
  | Call_ticker (pair_id : option string)
  | Call_ticker_all
  | Call_trades (pair_id : option string)
  | Call_get_info
  | Call_trans_history (start end_ : option string)
  | Call_trade (pair type_ : string) (price : float) (idr crypto : option float)
  | Call_trade_history (pair : option string) (count : option Z)
      (from_id end_id : option Z) (order : option string)
  | Call_open_orders (pair : option string)
  | Call_order_history (pair : option string) (count : option Z)
      (from_id end_id : option Z) (order : option string)
  | Call_get_order (order_id : Z)
  | Call_get_order_by_client_order_id (client_order_id : string)
  | Call_cancel_order (order_id : Z)
  | Call_cancel_by_client_order_id (client_order_id : string)
  | Call_withdraw_fee (currency : string) (amount : float) (address : string)
      (network : option string)
  | Call_withdraw_coin (currency : string) (amount : float) (address : string)
      (network memo : option string)
  | Call_list_downline
  | Call_check_downline (username : string)
  | Call_create_voucher (amount : float) (description : option string).

Definition call_tool (c : tool_call) : M json :=
  match c with
  | Call_server_time => server_time
  | Call_pairs => pairs
  | Call_price_increments => price_increments
  | Call_summaries => summaries
  | Call_ticker p => ticker p
  | Call_ticker_all => ticker_all
  | Call_trades p => trades p
  | Call_get_info => get_info
  | Call_trans_history s e => trans_history s e
  | Call_trade p t pr i c => trade p t pr i c
  | Call_trade_history p c f e o => trade_history p c f e o
  | Call_open_orders p => open_orders p
  | Call_order_history p c f e o => order_history p c f e o
  | Call_get_order i => get_order i
  | Call_get_order_by_client_order_id i => get_order_by_client_order_id i
  | Call_cancel_order i => cancel_order i
  | Call_cancel_by_client_order_id i => cancel_by_client_order_id i
  | Call_withdraw_fee c a ad n => withdraw_fee c a ad n
  | Call_withdraw_coin c a ad n m => withdraw_coin c a ad n m
  | Call_list_downline => list_downline
  | Call_check_downline u => check_downline u
  | Call_create_voucher a d => create_voucher a d
  end.

(** The payload mapping of a private tool call: the dictionary the
    adapter allocated, read after the call has ended. *)
Definition payload_of (m : M json) (s : state) : option pydict :=
  heap (snd (m s)) !! fresh (dom (heap s)).

(** An optional argument and its field: absent when the argument was not
    supplied, present only when it was. *)
Definition omitted_unless_supplied {A} (arg : option A) (field : string)
    (d : pydict) : Prop :=
  (arg = None -> dict_contains field d = false) /\
  (dict_contains field d = true -> arg <> None).

(** ** The adapters read as pure functions of their arguments *)

(** The tools of the section "Public REST API tools (no auth required)". *)
Definition is_public (c : tool_call) : bool :=
  match c with
  | Call_server_time | Call_pairs | Call_price_increments | Call_summaries
  | Call_ticker _ | Call_ticker_all | Call_trades _ => true
  | _ => false
  end.

(** The entry an [if x:] guarded store adds for an optional string. *)
Definition opt_str (k : string) (o : option string) : pydict :=
  match o with
  | Some s => if truthy (Some s) then [(k, VStr s)] else []
  | None => []
  end.

(** The entry an [if x is not None:] guarded store adds. *)
Definition opt_val {A} (inj : A -> value) (k : string) (o : option A) : pydict :=
  match o with
  | Some a => [(k, inj a)]
  | None => []
  end.

(** The items of the payload a private tool hands to [_private_post], in
    the order the adapter stores them; [None] for a public tool. *)
Definition payload_fields (c : tool_call) : option pydict :=
  match c with
  | Call_get_info => Some [("method", VStr "getInfo")]
  | Call_trans_history start end_ =>
      Some ([("method", VStr "transHistory")]
              ++ opt_str "start" start ++ opt_str "end" end_)
  | Call_trade pr type_ price idr crypto =>
      Some ([ ("method", VStr "trade"); ("pair", VStr pr);
              ("type", VStr type_); ("price", VFloat price) ]
              ++ opt_val VFloat "idr" idr ++ opt_val VFloat "crypto" crypto)
  | Call_trade_history pr count from_id end_id order =>
      Some ([ ("method", VStr "tradeHistory");
              ("count", VInt (default 100 count));
              ("order", VStr (default "desc" order)) ]
              ++ opt_str "pair" pr ++ opt_val VInt "from" from_id
              ++ opt_val VInt "end" end_id)
  | Call_open_orders pr =>
      Some ([("method", VStr "openOrders")] ++ opt_str "pair" pr)
  | Call_order_history pr count from_id end_id order =>
      Some ([ ("method", VStr "orderHistory");
              ("count", VInt (default 100 count));
              ("order", VStr (default "desc" order)) ]
              ++ opt_str "pair" pr ++ opt_val VInt "from" from_id
              ++ opt_val VInt "end" end_id)
  | Call_get_order order_id =>
      Some [("method", VStr "getOrder"); ("order_id", VInt order_id)]
  | Call_get_order_by_client_order_id client_order_id =>
      Some [ ("method", VStr "getOrderByClientOrderId");
             ("client_order_id", VStr client_order_id) ]
  | Call_cancel_order order_id =>
      Some [("method", VStr "cancelOrder"); ("order_id", VInt order_id)]
  | Call_cancel_by_client_order_id client_order_id =>
      Some [ ("method", VStr "cancelByClientOrderId");
             ("client_order_id", VStr client_order_id) ]
  | Call_withdraw_fee currency amount address network =>
      Some ([ ("method", VStr "withdrawFee"); ("currency", VStr currency);
              ("amount", VFloat amount); ("address", VStr address) ]
              ++ opt_str "network" network)
  | Call_withdraw_coin currency amount address network memo =>
      Some ([ ("method", VStr "withdrawCoin"); ("currency", VStr currency);
              ("amount", VFloat amount); ("address", VStr address) ]
              ++ opt_str "network" network ++ opt_str "memo" memo)
  | Call_list_downline => Some [("method", VStr "listDownline")]
  | Call_check_downline username =>
      Some [("method", VStr "checkDownline"); ("username", VStr username)]
  | Call_create_voucher amount description =>
      Some ([("method", VStr "createVoucher"); ("amount", VFloat amount)]
              ++ opt_str "description" description)
  | _ => None
  end.

(** The path a public tool fetches; [None] for a private tool. *)
Definition public_path (c : tool_call) : option string :=
  match c with
  | Call_server_time => Some "server_time"
  | Call_pairs => Some "pairs"
  | Call_price_increments => Some "price_increments"
  | Call_summaries => Some "summaries"
  | Call_ticker p => Some ("ticker" +:+ default "" ((fun s => "/" +:+ s) <$> (if truthy p then p else None)))
  | Call_ticker_all => Some "ticker_all"
  | Call_trades p => Some ("trades" +:+ default "" ((fun s => "/" +:+ s) <$> (if truthy p then p else None)))
  | _ => None
  end.

(** ** Reading a run of [_private_post] *)

(** The request [_private_post] builds around a serialised body. *)
Definition signed_request (body : string) : request :=
  Request POST INDODAX_API_URL
    [ ("Key", API_KEY cfg);
      ("Sign", HMAC.hexdigest (encode (API_SECRET cfg)) (encode body));
      ("Content-Type", "application/x-www-form-urlencoded") ]
    (encode body).

(** What a call returns once its request is on the wire. *)
Definition answer (req : request) : result json :=
  match remote w req with
  | Responded r =>
      if is_success r then
        match json_body r with
        | Some j => Return j
        | None => Raise JSONDecodeError
        end
      else Raise (HTTPStatusError (status_code r))
  | Unreachable => Raise TransportError
  end.

(** The test of line 75, and the payload after lines 75-78. *)
Definition unstamped (d : pydict) : bool :=
  negb (dict_contains "timestamp" d) && negb (dict_contains "nonce" d).

Definition stamped (d : pydict) : result pydict :=
  if unstamped d then
    match int_of_float (clock w * 1000)%float with
    | Return ms => Return (d ++ [("timestamp", VInt ms)])
    | Raise e => Raise e
    end
  else Return d.

(** A computation that sends nothing. *)
Definition quiet {A} (m : M A) : Prop :=
  forall s, wire (snd (m s)) = wire s.

(** A computation that either raises before sending, or sends exactly one
    request and returns what the remote side answered to it. *)
Definition one_shot (m : M json) : Prop :=
  forall s,
    (wire (snd (m s)) = wire s /\ exists e, fst (m s) = Raise e) \/
    (exists req, wire (snd (m s)) = wire s ++ [req] /\ fst (m s) = answer req).

Arguments HMAC.hexdigest : simpl never.
Arguments urlencode : simpl never.
Arguments int_of_float : simpl never.
Arguments valid_url : simpl never.
Arguments is_ascii : simpl never.

Lemma dict_setitem_fresh k v d :
  dict_contains k d = false -> dict_setitem k v d = d ++ [(k, v)].
Proof.
  induction d as [|[k' v'] d IH]; simpl; [reflexivity|].
  destruct (String.eqb k k'); [discriminate|].
  intros H. rewrite IH by exact H. reflexivity.
Qed.

Lemma dict_get_setitem_eq k v d : dict_get k (dict_setitem k v d) = Some v.
Proof.
  induction d as [|[k' v'] d IH]; simpl.
  - rewrite String.eqb_refl. reflexivity.
  - destruct (String.eqb k k') eqn:E; simpl; rewrite E; [reflexivity|exact IH].
Qed.

Lemma dict_get_setitem_ne k k' v d :
  k' <> k -> dict_get k' (dict_setitem k v d) = dict_get k' d.
Proof.
  intros Hne. induction d as [|[k0 v0] d IH]; simpl.
  - destruct (String.eqb k' k) eqn:E; [|reflexivity].
    apply String.eqb_eq in E. contradiction.
  - destruct (String.eqb k k0) eqn:E; simpl.
    + apply String.eqb_eq in E. subst k0.
      destruct (String.eqb k' k) eqn:E'; [|reflexivity].
      apply String.eqb_eq in E'. contradiction.
    + rewrite IH. reflexivity.
Qed.

Lemma dict_contains_setitem_eq k v d : dict_contains k (dict_setitem k v d) = true.
Proof.
  induction d as [|[k' v'] d IH]; simpl.
  - rewrite String.eqb_refl. reflexivity.
  - destruct (String.eqb k k') eqn:E; simpl; rewrite E; [reflexivity|exact IH].
Qed.

Lemma dict_contains_setitem_ne k k' v d :
  k' <> k -> dict_contains k' (dict_setitem k v d) = dict_contains k' d.
Proof.
  intros Hne. induction d as [|[k0 v0] d IH]; simpl.
  - destruct (String.eqb k' k) eqn:E; [|reflexivity].
    apply String.eqb_eq in E. contradiction.
  - destruct (String.eqb k k0) eqn:E; simpl.
    + reflexivity.
    + rewrite IH. reflexivity.
Qed.

Lemma sent_by_one {A} (m : M A) s req :
  wire (snd (m s)) = wire s ++ [req] -> sent_by m s = [req].
Proof.
  intros H. unfold sent_by. rewrite H. rewrite drop_app_length. reflexivity.
Qed.

Lemma sent_by_none {A} (m : M A) s :
  wire (snd (m s)) = wire s -> sent_by m s = [].
Proof.
  intros H. unfold sent_by. rewrite H. apply drop_all.
Qed.

(** *** The checks of the client *)

Lemma hex_digit_in n :
  In (HMAC.hex_digit n) (list_ascii_of_string "0123456789abcdef").
Proof.
  unfold HMAC.hex_digit.
  destruct (nth_in_or_default (Z.to_nat n)
              (list_ascii_of_string "0123456789abcdef") "0"%char) as [H|H].
  - exact H.
  - rewrite H. left. reflexivity.
Qed.

Lemma hex_is_ascii b : is_ascii (HMAC.hex b) = true.
Proof.
  unfold is_ascii, HMAC.hex. rewrite list_ascii_of_string_of_list_ascii.
  apply forallb_forall. intros c Hc.
  apply in_flat_map in Hc as [x [_ Hc]].
  assert (Hin : In c (list_ascii_of_string "0123456789abcdef"))
    by (destruct Hc as [<-|[<-|[]]]; apply hex_digit_in).
  clear Hc. revert c Hin. apply List.Forall_forall. repeat constructor.
Qed.

Lemma signed_request_encodable body :
  encodable_headers (req_headers (signed_request body)) = is_ascii (API_KEY cfg).
Proof.
  unfold encodable_headers, signed_request. cbn [req_headers forallb fst snd].
  unfold HMAC.hexdigest. rewrite hex_is_ascii.
  change (is_ascii "Key") with true. change (is_ascii "Sign") with true.
  change (is_ascii "Content-Type") with true.
  change (is_ascii "application/x-www-form-urlencoded") with true.
  cbn [andb]. rewrite andb_true_r. reflexivity.
Qed.

Lemma private_url_valid : valid_url INDODAX_API_URL = true.
Proof. reflexivity. Qed.

(** The tail of a dispatcher, from [send] on, when the client accepts the
    request. *)
Lemma send_tail req s :
  valid_url (req_url req) = true ->
  encodable_headers (req_headers req) = true ->
  bind (send w req) (fun response =>
    bind (raise_for_status response) (fun _ => response_json response)) s
  = (answer req, State (heap s) (wire s ++ [req])).
Proof.
  intros Hu Hh.
  unfold bind, send, answer, raise_for_status, response_json.
  rewrite Hu, Hh. cbn [negb].
  destruct (remote w req) as [r|]; [|reflexivity].
  destruct (is_success r); [|reflexivity].
  unfold ret. destruct (json_body r); reflexivity.
Qed.

(** When it does not, the call raises and the wire is as before. *)
Lemma send_refused {B} req (k : response -> M B) s :
  valid_url (req_url req) && encodable_headers (req_headers req) = false ->
  bind (send w req) k s =
    (Raise (if valid_url (req_url req) then UnicodeEncodeError else InvalidURL), s).
Proof.
  intros H. unfold bind, send.
  destruct (valid_url (req_url req)); cbn [negb]; [|reflexivity].
  cbn [andb] in H. rewrite H. reflexivity.
Qed.

(** *** The run of [_private_post], case by case *)

Lemma private_post_run p s d :
  heap s !! p = Some d ->
  _private_post p s =
    match stamped d with
    | Raise e => (Raise e, s)
    | Return d' =>
        let h := if unstamped d then <[p := d']> (heap s) else heap s in
        match urlencode d' with
        | Raise e => (Raise e, State h (wire s))
        | Return body =>
            if is_ascii (API_KEY cfg) then
              (answer (signed_request body),
               State h (wire s ++ [signed_request body]))
            else (Raise UnicodeEncodeError, State h (wire s))
        end
    end.
Proof.
  intros Hp. unfold _private_post, stamped.
  unfold bind at 1. unfold load at 1. rewrite Hp.
  change (negb (dict_contains "timestamp" d) && negb (dict_contains "nonce" d))
    with (unstamped d).
  destruct (unstamped d) eqn:Hu.
  - unfold bind at 1. unfold bind at 1. unfold lift at 1.
    destruct (int_of_float (clock w * 1000)%float) as [ms|e]; [|reflexivity].
    unfold setitem at 1. rewrite Hp.
    unfold bind at 1. unfold load at 1. cbn [heap].
    rewrite lookup_insert_eq.
    assert (Ht : dict_contains "timestamp" d = false).
    { unfold unstamped in Hu. destruct (dict_contains "timestamp" d);
        [discriminate|reflexivity]. }
    rewrite (dict_setitem_fresh _ _ _ Ht).
    unfold bind at 1. unfold lift at 1.
    destruct (urlencode (d ++ [("timestamp", VInt ms)])) as [body|e];
      [|reflexivity].
    fold (signed_request body).
    destruct (is_ascii (API_KEY cfg)) eqn:Hk.
    + rewrite send_tail;
        [reflexivity|exact private_url_valid|
         rewrite signed_request_encodable; exact Hk].
    + rewrite send_refused.
      * change (req_url (signed_request body)) with INDODAX_API_URL.
        rewrite private_url_valid. reflexivity.
      * rewrite signed_request_encodable, Hk. apply andb_false_r.
  - unfold bind at 1. unfold ret at 1.
    unfold bind at 1. unfold load at 1. rewrite Hp.
    unfold bind at 1. unfold lift at 1.
    destruct s as [h wr]. cbn [heap wire] in *.
    destruct (urlencode d) as [body|e]; [|reflexivity].
    fold (signed_request body).
    destruct (is_ascii (API_KEY cfg)) eqn:Hk.
    + rewrite send_tail;
        [reflexivity|exact private_url_valid|
         rewrite signed_request_encodable; exact Hk].
    + rewrite send_refused.
      * change (req_url (signed_request body)) with INDODAX_API_URL.
        rewrite private_url_valid. reflexivity.
      * rewrite signed_request_encodable, Hk. apply andb_false_r.
Qed.

Lemma private_post_dangling p s :
  heap s !! p = None -> _private_post p s = (Raise InvalidReference, s).
Proof.
  intros Hp. unfold _private_post, bind, load. rewrite Hp. reflexivity.
Qed.

(** *** Integers that [str] accepts *)

Lemma digits2_pos_bound m : Z.pos m < 2 ^ Z.pos (digits2_pos m).
Proof.
  induction m as [m IH|m IH|]; cbn [digits2_pos].
  - rewrite Pos2Z.inj_succ, Z.pow_succ_r by lia. lia.
  - rewrite Pos2Z.inj_succ, Z.pow_succ_r by lia. lia.
  - reflexivity.
Qed.

(** A double converted by [int] is below [2^1024] in magnitude. *)
Lemma int_of_float_bound x n :
  int_of_float x = Return n -> Z.abs n < 2 ^ 1024.
Proof.
  unfold int_of_float. intros H.
  pose proof (Prim2SF_valid x) as Hv.
  destruct (Prim2SF x) as [s|s| |s m e]; try discriminate H.
  - injection H as <-. reflexivity.
  - unfold valid_binary, SpecFloat.valid_binary, bounded, canonical_mantissa in Hv.
    apply andb_prop in Hv as [Hc He].
    apply Z.eqb_eq in Hc. apply Z.leb_le in He.
    unfold fexp, emin, emax, prec in *.
    pose proof (digits2_pos_bound m) as Hm.
    assert (Hd : Z.pos (digits2_pos m) <= 53) by lia.
    assert (Hm53 : Z.pos m < 2 ^ 53).
    { eapply Z.lt_le_trans; [exact Hm|].
      apply Z.pow_le_mono_r; lia. }
    assert (Ha : 0 <= (if 0 <=? e then Z.pos m * 2 ^ e else Z.pos m / 2 ^ (- e))
                 < 2 ^ 1024).
    { destruct (0 <=? e) eqn:E.
      - apply Z.leb_le in E. split; [apply Z.mul_nonneg_nonneg; lia|].
        replace 1024 with (53 + 971) by reflexivity.
        rewrite Z.pow_add_r by lia.
        apply Z.le_lt_trans with (Z.pos m * 2 ^ 971).
        * apply Z.mul_le_mono_nonneg_l; [lia|].
          apply Z.pow_le_mono_r; lia.
        * apply Z.mul_lt_mono_pos_r; [reflexivity|exact Hm53].
      - apply Z.leb_gt in E.
        assert (Hp : 0 < 2 ^ (- e)) by (apply Z.pow_pos_nonneg; lia).
        split.
        + apply Z.div_pos; lia.
        + apply Z.le_lt_trans with (Z.pos m).
          * apply Z.div_le_upper_bound; [exact Hp|]. nia.
          * eapply Z.lt_trans; [exact Hm53|].
            apply Z.pow_lt_mono_r; lia. }
    injection H as <-. destruct s; lia.
Qed.

Lemma pow2_1024_below_limit : 2 ^ 1024 < 10 ^ int_max_str_digits.
Proof.
  unfold int_max_str_digits.
  apply Z.lt_le_trans with (10 ^ 1024).
  - apply Z.pow_lt_mono_l; lia.
  - apply Z.pow_le_mono_r; lia.
Qed.

Lemma str_of_int_ok n :
  Z.abs n < 10 ^ int_max_str_digits -> str_of_int n = Return (decimal n).
Proof.
  intros H. unfold str_of_int.
  apply Z.leb_gt in H. rewrite H. reflexivity.
Qed.

Lemma urlencode_items_snoc d l k v sv :
  urlencode_items d = Return l ->
  py_str v = Return sv ->
  urlencode_items (d ++ [(k, v)]) =
    Return (l ++ [quote_plus k +:+ "=" +:+ quote_plus sv]).
Proof.
  revert l. induction d as [|[k0 v0] d IH]; intros l Hl Hv; simpl in *.
  - injection Hl as <-. rewrite Hv. reflexivity.
  - destruct (py_str v0) as [s0|]; [|discriminate Hl].
    destruct (urlencode_items d) as [l0|]; [|discriminate Hl].
    injection Hl as <-. rewrite (IH l0 eq_refl Hv). reflexivity.
Qed.

(** A payload that serialises still does once the timestamp read off the
    clock is appended. *)
Lemma urlencode_stamped d body ms :
  urlencode d = Return body ->
  int_of_float (clock w * 1000)%float = Return ms ->
  exists body', urlencode (d ++ [("timestamp", VInt ms)]) = Return body'.
Proof.
  unfold urlencode. intros Hb Hc.
  destruct (urlencode_items d) as [l|] eqn:Hl; [|discriminate Hb].
  assert (Hs : py_str (VInt ms) = Return (decimal ms)).
  { cbn [py_str]. apply str_of_int_ok.
    eapply Z.lt_trans; [exact (int_of_float_bound _ _ Hc)|].
    exact pow2_1024_below_limit. }
  rewrite (urlencode_items_snoc d l "timestamp" _ _ Hl Hs). eauto.
Qed.

(** *** What a run leaves behind *)

Lemma private_post_sent p s d :
  heap s !! p = Some d ->
  sent_by (_private_post p) s =
    match stamped d with
    | Raise _ => []
    | Return d' =>
        match urlencode d' with
        | Raise _ => []
        | Return body =>
            if is_ascii (API_KEY cfg) then [signed_request body] else []
        end
    end.
Proof.
  intros Hp. pose proof (private_post_run p s d Hp) as R.
  destruct (stamped d) as [d'|e].
  - cbn zeta in R. destruct (urlencode d') as [body|e].
    + destruct (is_ascii (API_KEY cfg)).
      * apply sent_by_one. rewrite R. reflexivity.
      * apply sent_by_none. rewrite R. reflexivity.
    + apply sent_by_none. rewrite R. reflexivity.
  - apply sent_by_none. rewrite R. reflexivity.
Qed.

Lemma private_post_heap p s d :
  heap s !! p = Some d ->
  heap (snd (_private_post p s)) =
    match stamped d with
    | Return d' => if unstamped d then <[p := d']> (heap s) else heap s
    | Raise _ => heap s
    end.
Proof.
  intros Hp. rewrite (private_post_run p s d Hp).
  destruct (stamped d) as [d'|e]; [|reflexivity].
  cbn zeta. destruct (urlencode d') as [body|e]; [|reflexivity].
  destruct (is_ascii (API_KEY cfg)); reflexivity.
Qed.

Lemma private_post_result p s d :
  heap s !! p = Some d ->
  fst (_private_post p s) =
    match stamped d with
    | Raise e => Raise e
    | Return d' =>
        match urlencode d' with
        | Raise e => Raise e
        | Return body =>
            if is_ascii (API_KEY cfg) then answer (signed_request body)
            else Raise UnicodeEncodeError
        end
    end.
Proof.
  intros Hp. rewrite (private_post_run p s d Hp).
  destruct (stamped d) as [d'|e]; [|reflexivity].
  cbn zeta. destruct (urlencode d') as [body|e]; [|reflexivity].
  destruct (is_ascii (API_KEY cfg)); reflexivity.
Qed.

Lemma unstamped_false d :
  dict_contains "timestamp" d || dict_contains "nonce" d = true ->
  unstamped d = false.
Proof.
  unfold unstamped.
  destruct (dict_contains "timestamp" d), (dict_contains "nonce" d);
    simpl; congruence.
Qed.

Lemma unstamped_true d :
  dict_contains "timestamp" d = false -> dict_contains "nonce" d = false ->
  unstamped d = true.
Proof. unfold unstamped. intros -> ->. reflexivity. Qed.

Lemma stamped_keep d :
  dict_contains "timestamp" d || dict_contains "nonce" d = true ->
  stamped d = Return d.
Proof. intros H. unfold stamped. rewrite (unstamped_false d H). reflexivity. Qed.

Lemma stamped_add d ms :
  dict_contains "timestamp" d = false -> dict_contains "nonce" d = false ->
  int_of_float (clock w * 1000)%float = Return ms ->
  stamped d = Return (d ++ [("timestamp", VInt ms)]).
Proof.
  intros Ht Hn Hc. unfold stamped.
  rewrite (unstamped_true d Ht Hn), Hc. reflexivity.
Qed.

(** The payload the caller's mapping holds when the call ends. *)
Lemma private_post_payload_at p s d :
  heap s !! p = Some d ->
  heap (snd (_private_post p s)) !! p =
    Some (match stamped d with Return d' => d' | Raise _ => d end).
Proof.
  intros Hp. rewrite (private_post_heap p s d Hp).
  unfold stamped. destruct (unstamped d); [|exact Hp].
  destruct (int_of_float (clock w * 1000)%float); [|exact Hp].
  apply lookup_insert_eq.
Qed.

Lemma private_post_payload p s d :
  heap s !! p = Some d ->
  exists d',
    heap (snd (_private_post p s)) !! p = Some d' /\
    (d' = d \/
     exists ms, dict_contains "timestamp" d = false /\
                d' = d ++ [("timestamp", VInt ms)]).
Proof.
  intros Hp. rewrite (private_post_payload_at p s d Hp).
  unfold stamped. destruct (unstamped d) eqn:Hu; [|eauto].
  destruct (int_of_float (clock w * 1000)%float) as [ms|e]; [|eauto].
  eexists. split; [reflexivity|]. right. exists ms. split; [|reflexivity].
  unfold unstamped in Hu.
  destruct (dict_contains "timestamp" d); [discriminate|reflexivity].
Qed.

Lemma private_post_one_shot p : one_shot (_private_post p).
Proof.
  intros s. destruct (heap s !! p) as [d|] eqn:Hp.
  - rewrite (private_post_run p s d Hp).
    destruct (stamped d) as [d'|e]; [|left; simpl; eauto].
    cbn zeta. destruct (urlencode d') as [body|e]; [|left; simpl; eauto].
    destruct (is_ascii (API_KEY cfg)); [|left; simpl; eauto].
    right. eexists. simpl. eauto.
  - rewrite (private_post_dangling p s Hp). left. simpl. eauto.
Qed.

Lemma public_get_run path s :
  _public_get path s =
    if valid_url (PUBLIC_API_BASE +:+ "/" +:+ path) then
      (answer (Request GET (PUBLIC_API_BASE +:+ "/" +:+ path) [] []),
       State (heap s)
         (wire s ++ [Request GET (PUBLIC_API_BASE +:+ "/" +:+ path) [] []]))
    else (Raise InvalidURL, s).
Proof.
  unfold _public_get.
  destruct (valid_url (PUBLIC_API_BASE +:+ "/" +:+ path)) eqn:Hu.
  - apply send_tail; [exact Hu|reflexivity].
  - rewrite send_refused.
    + cbn [req_url]. rewrite Hu. reflexivity.
    + cbn [req_url]. rewrite Hu. reflexivity.
Qed.

Lemma public_get_one_shot path : one_shot (_public_get path).
Proof.
  intros s. rewrite public_get_run.
  destruct (valid_url (PUBLIC_API_BASE +:+ "/" +:+ path)).
  - right. eexists. simpl. eauto.
  - left. simpl. eauto.
Qed.

Lemma quiet_ret {A} (a : A) : quiet (ret a).
Proof. intros s. reflexivity. Qed.

Lemma quiet_new_dict items : quiet (new_dict items).
Proof. intros s. reflexivity. Qed.

Lemma quiet_setitem l k v : quiet (setitem l k v).
Proof. intros s. unfold setitem. destruct (heap s !! l); reflexivity. Qed.

Lemma quiet_if_truthy o body :
  (forall x, quiet (body x)) -> quiet (if_truthy o body).
Proof.
  intros Hb. unfold if_truthy. destruct o as [x|]; [|apply quiet_ret].
  destruct (truthy (Some x)); [apply Hb|apply quiet_ret].
Qed.

Lemma quiet_if_not_None {A} (o : option A) body :
  (forall x, quiet (body x)) -> quiet (if_not_None o body).
Proof.
  intros Hb. unfold if_not_None. destruct o; [apply Hb|apply quiet_ret].
Qed.

Lemma one_shot_bind {A} (m : M A) (k : A -> M json) :
  quiet m -> (forall a, one_shot (k a)) -> one_shot (bind m k).
Proof.
  intros Hq Hk s. unfold bind. specialize (Hq s).
  destruct (m s) as [[a|e] s'] eqn:Hm; simpl in Hq.
  - rewrite <- Hq. apply Hk.
  - left. simpl. eauto.
Qed.

Create HintDb wire discriminated.
#[local] Hint Resolve quiet_ret quiet_new_dict quiet_setitem quiet_if_truthy
  quiet_if_not_None private_post_one_shot public_get_one_shot : wire.

Ltac one_shot_tac :=
  repeat first
    [ apply private_post_one_shot
    | apply public_get_one_shot
    | apply one_shot_bind; [solve [auto with wire] | intros ?] ].

Lemma call_tool_one_shot c : one_shot (call_tool c).
Proof.
  destruct c; simpl;
    try (apply public_get_one_shot);
    try (unfold ticker, trades; apply public_get_one_shot);
    unfold get_info, trans_history, trade, trade_history, open_orders,
      order_history, get_order, get_order_by_client_order_id, cancel_order,
      cancel_by_client_order_id, withdraw_fee, withdraw_coin, list_downline,
      check_downline, create_voucher;
    one_shot_tac.
Qed.

Lemma is_success_false r :
  status_code r < 200 \/ 299 < status_code r -> is_success r = false.
Proof.
  intros H. unfold is_success.
  destruct (200 <=? status_code r) eqn:E1; [|reflexivity].
  destruct (status_code r <=? 299) eqn:E2; [|reflexivity].
  apply Z.leb_le in E1, E2. lia.
Qed.

(** ** Properties of the signed dispatcher *)

(** C1. For every payload mapping, a request that [_private_post] sends
    carries in [Sign] the hex HMAC-SHA512, keyed by the configured secret,
    of the very bytes sent as its body, and those bytes are the
    form-urlencoded serialisation of the payload; it is the only request
    of the call.  The call does send one when the API key is ASCII, the
    payload serialises, and the clock is readable where it is needed;
    otherwise it raises before sending. *)
Theorem sign_is_hmac_of_transmitted_body p s d :
  heap s !! p = Some d ->
  (forall req, In req (sent_by (_private_post p) s) ->
     sent_by (_private_post p) s = [req] /\
     header "Sign" (req_headers req) =
       Some (HMAC.hexdigest (encode (API_SECRET cfg)) (req_content req)) /\
     exists d' body,
       heap (snd (_private_post p s)) !! p = Some d' /\
       urlencode d' = Return body /\
       req_content req = encode body) /\
  (is_ascii (API_KEY cfg) = true ->
   (exists body, urlencode d = Return body) ->
   (dict_contains "timestamp" d || dict_contains "nonce" d = true \/
    exists ms, int_of_float (clock w * 1000)%float = Return ms) ->
   exists req, sent_by (_private_post p) s = [req]).
Proof.
  intros Hp. split.
  - intros req Hin.
    rewrite (private_post_sent p s d Hp) in Hin |- *.
    rewrite (private_post_payload_at p s d Hp).
    destruct (stamped d) as [d'|e]; [|destruct Hin].
    destruct (urlencode d') as [body|e] eqn:Hb; [|destruct Hin].
    destruct (is_ascii (API_KEY cfg)); [|destruct Hin].
    destruct Hin as [<-|[]].
    split; [reflexivity|]. split; [reflexivity|].
    exists d', body. auto.
  - intros Hk [body Hb] Hclock.
    rewrite (private_post_sent p s d Hp), Hk.
    unfold stamped. destruct (unstamped d) eqn:Hu.
    + destruct Hclock as [Hpres|[ms Hc]].
      * rewrite (unstamped_false d Hpres) in Hu. discriminate Hu.
      * rewrite Hc. destruct (urlencode_stamped d body ms Hb Hc) as [body' ->].
        eauto.
    + rewrite Hb. eauto.
Qed.

(** C2. A payload with neither [nonce] nor [timestamp] gets exactly one
    field added, [timestamp], holding [int(time() * 1000)], and it is the
    extended payload that is serialised and signed; a payload that has
    either key is left as it is and serialised and signed as it is.  In
    both cases the request goes out when the API key is ASCII and the
    payload serialises. *)
Theorem timestamp_injected_iff_missing p s d :
  heap s !! p = Some d ->
  (dict_contains "timestamp" d = false ->
   dict_contains "nonce" d = false ->
   forall ms, int_of_float (clock w * 1000)%float = Return ms ->
     let d' : pydict := d ++ [("timestamp", VInt ms)] in
     heap (snd (_private_post p s)) !! p = Some d' /\
     (forall req, In req (sent_by (_private_post p) s) ->
        exists body,
          urlencode d' = Return body /\
          req_content req = encode body /\
          header "Sign" (req_headers req) =
            Some (HMAC.hexdigest (encode (API_SECRET cfg)) (encode body))) /\
     (is_ascii (API_KEY cfg) = true ->
      (exists body, urlencode d = Return body) ->
      exists req, sent_by (_private_post p) s = [req])) /\
  (dict_contains "timestamp" d || dict_contains "nonce" d = true ->
     heap (snd (_private_post p s)) !! p = Some d /\
     (forall req, In req (sent_by (_private_post p) s) ->
        exists body,
          urlencode d = Return body /\
          req_content req = encode body /\
          header "Sign" (req_headers req) =
            Some (HMAC.hexdigest (encode (API_SECRET cfg)) (encode body))) /\
     (is_ascii (API_KEY cfg) = true ->
      (exists body, urlencode d = Return body) ->
      exists req, sent_by (_private_post p) s = [req])).
Proof.
  intros Hp. split.
  - intros Ht Hn ms Hc d'.
    rewrite (private_post_payload_at p s d Hp), (private_post_sent p s d Hp).
    rewrite (stamped_add d ms Ht Hn Hc). fold d'.
    split; [reflexivity|]. split.
    + intros req Hin.
      destruct (urlencode d') as [body|e]; [|destruct Hin].
      destruct (is_ascii (API_KEY cfg)); [|destruct Hin].
      destruct Hin as [<-|[]]. exists body. auto.
    + intros Hk [body Hb]. rewrite Hk.
      destruct (urlencode_stamped d body ms Hb Hc) as [body' Hb'].
      fold d' in Hb'. rewrite Hb'. eauto.
  - intros Hpres.
    rewrite (private_post_payload_at p s d Hp), (private_post_sent p s d Hp).
    rewrite (stamped_keep d Hpres).
    split; [reflexivity|]. split.
    + intros req Hin.
      destruct (urlencode d) as [body|e]; [|destruct Hin].
      destruct (is_ascii (API_KEY cfg)); [|destruct Hin].
      destruct Hin as [<-|[]]. exists body. auto.
    + intros Hk [body Hb]. rewrite Hk, Hb. eauto.
Qed.

(** C10. [_private_post] works on the caller's own mapping.  When it has
    neither [nonce] nor [timestamp], after the call it holds the injected
    [timestamp] and every other entry is as before; when it has either
    key, the heap is left as it was.  Other objects are never touched. *)
Theorem payload_mutated_in_place p s d ms :
  heap s !! p = Some d ->
  int_of_float (clock w * 1000)%float = Return ms ->
  let s' := snd (_private_post p s) in
  (dict_contains "timestamp" d = false ->
   dict_contains "nonce" d = false ->
   exists d',
     heap s' !! p = Some d' /\
     d' = d ++ [("timestamp", VInt ms)] /\
     dict_get "timestamp" d' = Some (VInt ms) /\
     (forall k, k <> "timestamp" -> dict_get k d' = dict_get k d)) /\
  (dict_contains "timestamp" d || dict_contains "nonce" d = true ->
   heap s' = heap s) /\
  (forall q, q <> p -> heap s' !! q = heap s !! q).
Proof.
  intros Hp Hc s'. subst s'. split; [|split].
  - intros Ht Hn.
    pose proof (private_post_payload_at p s d Hp) as Q.
    rewrite (stamped_add d ms Ht Hn Hc) in Q.
    exists (d ++ [("timestamp", VInt ms)]).
    split; [exact Q|]. split; [reflexivity|].
    rewrite <- (dict_setitem_fresh "timestamp" (VInt ms) d Ht). split.
    + apply dict_get_setitem_eq.
    + intros k Hk. apply dict_get_setitem_ne. exact Hk.
  - intros Hk. rewrite (private_post_heap p s d Hp).
    rewrite (unstamped_false d Hk). destruct (stamped d); reflexivity.
  - intros q Hq. rewrite (private_post_heap p s d Hp).
    destruct (stamped d); [|reflexivity].
    destruct (unstamped d); [|reflexivity].
    apply lookup_insert_ne. congruence.
Qed.

(** C3. Whatever the tool, public or private: when the response to the
    request it sent has a status outside 200..299, the call ends with
    [HTTPStatusError] raised to the caller, never with a returned value. *)
Theorem non_2xx_status_raises c s req r :
  In req (sent_by (call_tool c) s) ->
  remote w req = Responded r ->
  status_code r < 200 \/ 299 < status_code r ->
  fst (call_tool c s) = Raise (HTTPStatusError (status_code r)).
Proof.
  intros Hin Hr Hst.
  destruct (call_tool_one_shot c s) as [[Hw _]|[req' [Hw Hres]]].
  - rewrite (sent_by_none _ _ Hw) in Hin. destruct Hin.
  - rewrite (sent_by_one _ _ _ Hw) in Hin.
    destruct Hin as [->|[]].
    rewrite Hres. unfold answer. rewrite Hr.
    rewrite (is_success_false r Hst). reflexivity.
Qed.

(** C8. [ticker()] fetches the aggregate path [ticker];
    [ticker("btc_idr")] fetches [ticker/btc_idr]. *)
Theorem ticker_paths s :
  sent_by (ticker None) s = [Request GET "https://indodax.com/api/ticker" [] []] /\
  sent_by (ticker (Some "btc_idr")) s =
    [Request GET "https://indodax.com/api/ticker/btc_idr" [] []].
Proof.
  split; apply sent_by_one; unfold ticker; simpl; rewrite public_get_run;
    match goal with
    | |- context [valid_url ?u] => replace (valid_url u) with true by reflexivity
    end;
    reflexivity.
Qed.

(** ** Properties of the tool adapters *)

Lemma payload_of_new_dict items (k : loc -> M json) s :
  payload_of (bind (new_dict items) k) s =
    heap (snd (k (fresh (dom (heap s)))
                 (State (<[fresh (dom (heap s)) := dict_of items]> (heap s)) (wire s))))
      !! fresh (dom (heap s)).
Proof. reflexivity. Qed.

Lemma bind_ret {A B} (a : A) (k : A -> M B) s : bind (ret a) k s = k a s.
Proof. reflexivity. Qed.

Lemma bind_setitem {B} l k v (K : unit -> M B) h wr d :
  h !! l = Some d ->
  bind (setitem l k v) K (State h wr) =
    K tt (State (<[l := dict_setitem k v d]> h) wr).
Proof.
  intros Hl. unfold bind, setitem. simpl. rewrite Hl. reflexivity.
Qed.

Ltac split_truthy o :=
  let x := fresh "x" in
  let E := fresh "E" in
  destruct o as [x|];
  [ unfold if_truthy at 1; destruct (truthy (Some x)) eqn:E | unfold if_truthy at 1 ].

Ltac split_given o :=
  let x := fresh "x" in
  destruct o as [x|]; unfold if_not_None at 1.

Ltac run_steps :=
  repeat first
    [ rewrite bind_ret
    | erewrite bind_setitem by apply lookup_insert_eq; rewrite insert_insert_eq ].

Ltac field_tac :=
  repeat match goal with
  | |- _ /\ _ => split
  | |- omitted_unless_supplied _ _ _ =>
      split; intros ?; try discriminate; try reflexivity;
      simpl in *; try discriminate; try reflexivity
  end;
  try reflexivity.

Ltac payload_tac :=
  rewrite payload_of_new_dict; run_steps;
  match goal with
  | |- exists d, heap (snd (_private_post ?l (State (<[?l := ?D]> ?h) ?wr))) !! ?l = Some d /\ _ =>
      let d' := fresh "d'" in
      let Hd := fresh "Hd" in
      let ms := fresh "ms" in
      destruct (private_post_payload l (State (<[l := D]> h) wr) D
                  (lookup_insert_eq h l D))
        as [d' [Hd [-> | [ms [_ ->]]]]];
      eexists; (split; [exact Hd|]); field_tac
  end.

Lemma trans_history_payload start end_ s :
  exists d,
    payload_of (trans_history start end_) s = Some d /\
    omitted_unless_supplied start "start" d /\
    omitted_unless_supplied end_ "end" d.
Proof.
  unfold trans_history.
  split_truthy start; split_truthy end_; payload_tac.
Qed.

Lemma trade_payload pair type_ price idr crypto s :
  exists d,
    payload_of (trade pair type_ price idr crypto) s = Some d /\
    omitted_unless_supplied idr "idr" d /\
    omitted_unless_supplied crypto "crypto" d.
Proof.
  unfold trade. split_given idr; split_given crypto; payload_tac.
Qed.

Lemma trade_history_payload pair count from_id end_id order s :
  exists d,
    payload_of (trade_history pair count from_id end_id order) s = Some d /\
    omitted_unless_supplied pair "pair" d /\
    omitted_unless_supplied from_id "from" d /\
    omitted_unless_supplied end_id "end" d /\
    dict_get "count" d = Some (VInt (default 100 count)) /\
    dict_get "order" d = Some (VStr (default "desc" order)).
Proof.
  unfold trade_history.
  split_truthy pair; split_given from_id; split_given end_id; payload_tac.
Qed.

Lemma open_orders_payload pair s :
  exists d,
    payload_of (open_orders pair) s = Some d /\
    omitted_unless_supplied pair "pair" d.
Proof.
  unfold open_orders. split_truthy pair; payload_tac.
Qed.

Lemma order_history_payload pair count from_id end_id order s :
  exists d,
    payload_of (order_history pair count from_id end_id order) s = Some d /\
    omitted_unless_supplied pair "pair" d /\
    omitted_unless_supplied from_id "from" d /\
    omitted_unless_supplied end_id "end" d /\
    dict_get "count" d = Some (VInt (default 100 count)) /\
    dict_get "order" d = Some (VStr (default "desc" order)).
Proof.
  unfold order_history.
  split_truthy pair; split_given from_id; split_given end_id; payload_tac.
Qed.

Lemma withdraw_fee_payload currency amount address network s :
  exists d,
    payload_of (withdraw_fee currency amount address network) s = Some d /\
    omitted_unless_supplied network "network" d.
Proof.
  unfold withdraw_fee. split_truthy network; payload_tac.
Qed.

Lemma withdraw_coin_payload currency amount address network memo s :
  exists d,
    payload_of (withdraw_coin currency amount address network memo) s = Some d /\
    omitted_unless_supplied network "network" d /\
    omitted_unless_supplied memo "memo" d.
Proof.
  unfold withdraw_coin. split_truthy network; split_truthy memo; payload_tac.
Qed.

Lemma create_voucher_payload amount description s :
  exists d,
    payload_of (create_voucher amount description) s = Some d /\
    omitted_unless_supplied description "description" d.
Proof.
  unfold create_voucher. split_truthy description; payload_tac.
Qed.

(** C7 (as amended). For every adapter, an argument whose default is
    [None] and that the caller did not supply leaves no field in the
    payload, and its field is in the payload only when the caller supplied
    it.  [count] and [order] of [trade_history] and [order_history] have
    defaults of their own (100 and "desc") and are always sent. *)
Theorem none_default_omitted_when_not_supplied s :
  (forall start end_, exists d,
     payload_of (trans_history start end_) s = Some d /\
     omitted_unless_supplied start "start" d /\
     omitted_unless_supplied end_ "end" d) /\
  (forall pair type_ price idr crypto, exists d,
     payload_of (trade pair type_ price idr crypto) s = Some d /\
     omitted_unless_supplied idr "idr" d /\
     omitted_unless_supplied crypto "crypto" d) /\
  (forall pair count from_id end_id order, exists d,
     payload_of (trade_history pair count from_id end_id order) s = Some d /\
     omitted_unless_supplied pair "pair" d /\
     omitted_unless_supplied from_id "from" d /\
     omitted_unless_supplied end_id "end" d /\
     dict_get "count" d = Some (VInt (default 100 count)) /\
     dict_get "order" d = Some (VStr (default "desc" order))) /\
  (forall pair, exists d,
     payload_of (open_orders pair) s = Some d /\
     omitted_unless_supplied pair "pair" d) /\
  (forall pair count from_id end_id order, exists d,
     payload_of (order_history pair count from_id end_id order) s = Some d /\
     omitted_unless_supplied pair "pair" d /\
     omitted_unless_supplied from_id "from" d /\
     omitted_unless_supplied end_id "end" d /\
     dict_get "count" d = Some (VInt (default 100 count)) /\
     dict_get "order" d = Some (VStr (default "desc" order))) /\
  (forall currency amount address network, exists d,
     payload_of (withdraw_fee currency amount address network) s = Some d /\
     omitted_unless_supplied network "network" d) /\
  (forall currency amount address network memo, exists d,
     payload_of (withdraw_coin currency amount address network memo) s = Some d /\
     omitted_unless_supplied network "network" d /\
     omitted_unless_supplied memo "memo" d) /\
  (forall amount description, exists d,
     payload_of (create_voucher amount description) s = Some d /\
     omitted_unless_supplied description "description" d).
Proof.
  repeat split; intros.
  - apply trans_history_payload.
  - apply trade_payload.
  - apply trade_history_payload.
  - apply open_orders_payload.
  - apply order_history_payload.
  - apply withdraw_fee_payload.
  - apply withdraw_coin_payload.
  - apply create_voucher_payload.
Qed.


(** ** Every tool call, read as one request *)

Lemma bind_new_dict {B} items (k : loc -> M B) s :
  bind (new_dict items) k s =
    k (fresh (dom (heap s)))
      (State (<[fresh (dom (heap s)) := dict_of items]> (heap s)) (wire s)).
Proof. reflexivity. Qed.

Ltac split_opt_str o :=
  let x := fresh "x" in
  let E := fresh "E" in
  destruct o as [x|]; cbn [opt_str]; unfold if_truthy at 1;
  [ destruct (truthy (Some x)) eqn:E | ].

Ltac split_opt_val o :=
  let x := fresh "x" in
  destruct o as [x|]; cbn [opt_val]; unfold if_not_None at 1.

(** A private tool runs [_private_post] on a new dictionary holding
    exactly its [payload_fields]. *)
Lemma private_call_run c items s :
  payload_fields c = Some items ->
  call_tool c s =
    _private_post (fresh (dom (heap s)))
      (State (<[fresh (dom (heap s)) := items]> (heap s)) (wire s)).
Proof.
  intros H. destruct c; simpl in H; try discriminate H;
    injection H as <-; cbn [call_tool].
  - unfold get_info. rewrite bind_new_dict. reflexivity.
  - unfold trans_history. rewrite bind_new_dict.
    split_opt_str start; split_opt_str end_; run_steps; reflexivity.
  - unfold trade. rewrite bind_new_dict.
    split_opt_val idr; split_opt_val crypto; run_steps; reflexivity.
  - unfold trade_history. rewrite bind_new_dict.
    split_opt_str pair; split_opt_val from_id; split_opt_val end_id;
      run_steps; reflexivity.
  - unfold open_orders. rewrite bind_new_dict.
    split_opt_str pair; run_steps; reflexivity.
  - unfold order_history. rewrite bind_new_dict.
    split_opt_str pair; split_opt_val from_id; split_opt_val end_id;
      run_steps; reflexivity.
  - unfold get_order. rewrite bind_new_dict. reflexivity.
  - unfold get_order_by_client_order_id. rewrite bind_new_dict. reflexivity.
  - unfold cancel_order. rewrite bind_new_dict. reflexivity.
  - unfold cancel_by_client_order_id. rewrite bind_new_dict. reflexivity.
  - unfold withdraw_fee. rewrite bind_new_dict.
    split_opt_str network; run_steps; reflexivity.
  - unfold withdraw_coin. rewrite bind_new_dict.
    split_opt_str network; split_opt_str memo; run_steps; reflexivity.
  - unfold list_downline. rewrite bind_new_dict. reflexivity.
  - unfold check_downline. rewrite bind_new_dict. reflexivity.
  - unfold create_voucher. rewrite bind_new_dict.
    split_opt_str description; run_steps; reflexivity.
Qed.

Lemma public_call_run c path s :
  public_path c = Some path ->
  call_tool c s = _public_get path s.
Proof.
  intros H. destruct c; simpl in H; try discriminate H; injection H as <-;
    cbn [call_tool]; try reflexivity.
  - unfold ticker. destruct pair_id as [x|]; [|reflexivity].
    cbn [truthy]. destruct (negb (String.eqb x "")); reflexivity.
  - unfold trades. destruct pair_id as [x|]; [|reflexivity].
    cbn [truthy]. destruct (negb (String.eqb x "")); reflexivity.
Qed.

Lemma tool_call_kind c :
  (is_public c = true /\ exists path, public_path c = Some path) \/
  (is_public c = false /\ exists items, payload_fields c = Some items).
Proof.
  destruct c; simpl; eauto.
Qed.

(** No adapter stores a [timestamp] or a [nonce] of its own. *)
Lemma payload_fields_unstamped c items :
  payload_fields c = Some items ->
  dict_contains "timestamp" items = false /\ dict_contains "nonce" items = false.
Proof.
  intros H. destruct c; simpl in H; try discriminate H; injection H as <-;
    repeat match goal with
    | o : option _ |- _ => destruct o
    end;
    cbn [opt_str opt_val];
    repeat match goal with
    | |- context [truthy (Some ?x)] => destruct (truthy (Some x))
    end;
    split; reflexivity.
Qed.

Lemma private_call_stamped_payload c items :
  payload_fields c = Some items ->
  stamped items =
    match int_of_float (clock w * 1000)%float with
    | Return ms => Return (items ++ [("timestamp", VInt ms)])
    | Raise e => Raise e
    end.
Proof.
  intros Hf. destruct (payload_fields_unstamped c items Hf) as [Ht Hn].
  unfold stamped. rewrite (unstamped_true items Ht Hn). reflexivity.
Qed.

Lemma private_call_sent c items s :
  payload_fields c = Some items ->
  sent_by (call_tool c) s =
    match stamped items with
    | Raise _ => []
    | Return d' =>
        match urlencode d' with
        | Raise _ => []
        | Return body =>
            if is_ascii (API_KEY cfg) then [signed_request body] else []
        end
    end.
Proof.
  intros Hf.
  rewrite <- (private_post_sent (fresh (dom (heap s)))
                (State (<[fresh (dom (heap s)) := items]> (heap s)) (wire s))
                items (lookup_insert_eq _ _ _)).
  unfold sent_by. rewrite (private_call_run c items s Hf). reflexivity.
Qed.

Lemma private_call_heap c items s :
  payload_fields c = Some items ->
  heap (snd (call_tool c s)) =
    <[fresh (dom (heap s)) :=
        match stamped items with Return d' => d' | Raise _ => items end]> (heap s).
Proof.
  intros Hf. rewrite (private_call_run c items s Hf).
  rewrite (private_post_heap _ _ items (lookup_insert_eq _ _ _)).
  destruct (payload_fields_unstamped c items Hf) as [Ht Hn].
  rewrite (unstamped_true items Ht Hn). cbn [heap].
  destruct (stamped items); [apply insert_insert_eq|reflexivity].
Qed.

Lemma private_call_result c items s :
  payload_fields c = Some items ->
  fst (call_tool c s) =
    match stamped items with
    | Raise e => Raise e
    | Return d' =>
        match urlencode d' with
        | Raise e => Raise e
        | Return body =>
            if is_ascii (API_KEY cfg) then answer (signed_request body)
            else Raise UnicodeEncodeError
        end
    end.
Proof.
  intros Hf. rewrite (private_call_run c items s Hf).
  apply (private_post_result _ _ items (lookup_insert_eq _ _ _)).
Qed.

Lemma fresh_not_live (s : state) q :
  is_Some (heap s !! q) -> q <> fresh (dom (heap s)).
Proof.
  intros Hq ->. apply elem_of_dom in Hq. exact (is_fresh _ Hq).
Qed.

Lemma call_tool_answer c s req :
  In req (sent_by (call_tool c) s) -> fst (call_tool c s) = answer req.
Proof.
  intros Hin.
  destruct (call_tool_one_shot c s) as [[Hw _]|[req' [Hw Hres]]].
  - rewrite (sent_by_none _ _ Hw) in Hin. destruct Hin.
  - rewrite (sent_by_one _ _ _ Hw) in Hin. destruct Hin as [->|[]]. exact Hres.
Qed.

(** X1. A private tool call hands [_private_post] the fields of its
    adapter, in the order the adapter stores them, and the [timestamp]
    goes last: that is the dictionary it leaves in the heap, and the body
    of any request it sends is the serialisation of exactly these items.
    The request goes out when the API key is ASCII and the fields
    serialise. *)
Theorem private_tool_payload_exact c items s ms :
  payload_fields c = Some items ->
  int_of_float (clock w * 1000)%float = Return ms ->
  let d : pydict := items ++ [("timestamp", VInt ms)] in
  payload_of (call_tool c) s = Some d /\
  (forall req, In req (sent_by (call_tool c) s) ->
     exists body,
       urlencode d = Return body /\
       req = Request POST INDODAX_API_URL
               [ ("Key", API_KEY cfg);
                 ("Sign", HMAC.hexdigest (encode (API_SECRET cfg)) (encode body));
                 ("Content-Type", "application/x-www-form-urlencoded") ]
               (encode body)) /\
  (is_ascii (API_KEY cfg) = true ->
   (exists body, urlencode items = Return body) ->
   exists req, sent_by (call_tool c) s = [req]).
Proof.
  intros Hf Hc d.
  pose proof (private_call_stamped_payload c items Hf) as Hs.
  rewrite Hc in Hs. fold d in Hs.
  split; [|split].
  - unfold payload_of. rewrite (private_call_heap c items s Hf), Hs.
    apply lookup_insert_eq.
  - intros req Hin. rewrite (private_call_sent c items s Hf), Hs in Hin.
    destruct (urlencode d) as [body|e]; [|destruct Hin].
    destruct (is_ascii (API_KEY cfg)); [|destruct Hin].
    destruct Hin as [<-|[]]. exists body. split; reflexivity.
  - intros Hk [body Hb].
    rewrite (private_call_sent c items s Hf), Hs, Hk.
    destruct (urlencode_stamped items body ms Hb Hc) as [body' Hb'].
    fold d in Hb'. rewrite Hb'. eauto.
Qed.

(** X2. No tool sends more than one request, whatever comes back: a
    failed call is not retried. *)
Theorem at_most_one_request_per_call c s :
  (length (sent_by (call_tool c) s) <= 1)%nat.
Proof.
  destruct (call_tool_one_shot c s) as [[Hw _]|[req [Hw _]]].
  - rewrite (sent_by_none _ _ Hw). simpl. lia.
  - rewrite (sent_by_one _ _ _ Hw). simpl. lia.
Qed.

(** X3. A 2xx response whose body is JSON is returned to the caller as it
    is, for every tool: nothing in it is inspected or rewritten. *)
Theorem success_body_returned_verbatim c s req r j :
  In req (sent_by (call_tool c) s) ->
  remote w req = Responded r ->
  200 <= status_code r <= 299 ->
  json_body r = Some j ->
  fst (call_tool c s) = Return j.
Proof.
  intros Hin Hr [H1 H2] Hj.
  rewrite (call_tool_answer c s req Hin). unfold answer. rewrite Hr.
  unfold is_success.
  apply Z.leb_le in H1, H2. rewrite H1, H2, Hj. reflexivity.
Qed.

(** X4. When no response comes back (DNS, connection, TLS, timeout) the
    call raises the transport error, for every tool; the request had been
    put on the wire once and is not sent again. *)
Theorem unreachable_raises_transport_error c s req :
  In req (sent_by (call_tool c) s) ->
  remote w req = Unreachable ->
  fst (call_tool c s) = Raise TransportError /\
  sent_by (call_tool c) s = [req].
Proof.
  intros Hin Hr. split.
  - rewrite (call_tool_answer c s req Hin). unfold answer. rewrite Hr.
    reflexivity.
  - destruct (call_tool_one_shot c s) as [[Hw _]|[req' [Hw _]]].
    + rewrite (sent_by_none _ _ Hw) in Hin. destruct Hin.
    + rewrite (sent_by_one _ _ _ Hw) in Hin |- *.
      destruct Hin as [->|[]]. reflexivity.
Qed.

(** X5. A 2xx response whose body is not a JSON document makes the call
    raise the decoding error, for every tool. *)
Theorem non_json_body_raises c s req r :
  In req (sent_by (call_tool c) s) ->
  remote w req = Responded r ->
  200 <= status_code r <= 299 ->
  json_body r = None ->
  fst (call_tool c s) = Raise JSONDecodeError.
Proof.
  intros Hin Hr [H1 H2] Hj.
  rewrite (call_tool_answer c s req Hin). unfold answer. rewrite Hr.
  unfold is_success.
  apply Z.leb_le in H1, H2. rewrite H1, H2, Hj. reflexivity.
Qed.

(** X6. Routing and credentials.  A public tool sends a GET under the
    public base, with no header and no body: neither the API key nor a
    signature goes to the public endpoints.  A private tool sends a POST
    to the one private endpoint, with exactly the headers [Key], [Sign],
    [Content-Type], the signature being the HMAC of the body it sends. *)
Theorem requests_by_tool_kind c s req :
  In req (sent_by (call_tool c) s) ->
  if is_public c then
    req_method req = GET /\
    req_headers req = [] /\
    req_content req = [] /\
    exists path, public_path c = Some path /\
                 req_url req = PUBLIC_API_BASE +:+ "/" +:+ path
  else
    req_method req = POST /\
    req_url req = INDODAX_API_URL /\
    req_headers req =
      [ ("Key", API_KEY cfg);
        ("Sign", HMAC.hexdigest (encode (API_SECRET cfg)) (req_content req));
        ("Content-Type", "application/x-www-form-urlencoded") ].
Proof.
  intros Hin.
  destruct (tool_call_kind c) as [[-> [path Hp]]|[-> [items Hf]]].
  - unfold sent_by in Hin.
    rewrite (public_call_run c path s Hp), public_get_run in Hin.
    destruct (valid_url (PUBLIC_API_BASE +:+ "/" +:+ path)).
    + cbn [snd wire] in Hin. rewrite drop_app_length in Hin.
      destruct Hin as [<-|[]]. simpl. eauto 6.
    + cbn [snd] in Hin. rewrite drop_all in Hin. destruct Hin.
  - rewrite (private_call_sent c items s Hf) in Hin.
    destruct (stamped items) as [d'|e]; [|destruct Hin].
    destruct (urlencode d') as [body|e]; [|destruct Hin].
    destruct (is_ascii (API_KEY cfg)); [|destruct Hin].
    destruct Hin as [<-|[]]. simpl. auto.
Qed.

(** X7. Calls do not interfere through the heap: a tool call leaves every
    dictionary that existed before it as it was.  A public tool leaves the
    whole heap as it was; a private tool adds one dictionary, its own
    payload, at an address that was free. *)
Theorem tool_calls_keep_existing_objects c s :
  (forall q, is_Some (heap s !! q) ->
     heap (snd (call_tool c s)) !! q = heap s !! q) /\
  (is_public c = true -> heap (snd (call_tool c s)) = heap s) /\
  (is_public c = false ->
     heap s !! fresh (dom (heap s)) = None /\
     dom (heap (snd (call_tool c s))) = {[ fresh (dom (heap s)) ]} ∪ dom (heap s)).
Proof.
  destruct (tool_call_kind c) as [[Hk [path Hp]]|[Hk [items Hf]]]; rewrite Hk.
  - rewrite (public_call_run c path s Hp), public_get_run.
    destruct (valid_url (PUBLIC_API_BASE +:+ "/" +:+ path)); simpl;
      (split; [reflexivity|]); (split; [reflexivity|discriminate]).
  - assert (Hfree : heap s !! fresh (dom (heap s)) = None)
      by (apply not_elem_of_dom, is_fresh).
    rewrite (private_call_heap c items s Hf).
    split; [|split; [discriminate|]].
    + intros q Hq. apply lookup_insert_ne.
      intros E. symmetry in E. exact (fresh_not_live s q Hq E).
    + intros _. split; [exact Hfree|]. apply dom_insert_L.
Qed.

(** X8. [ticker] and [trades] append the pair to the path as it is given,
    after a slash, when the client accepts the resulting URL; an empty
    pair is treated as no pair and fetches the aggregate path. *)
Theorem pair_paths (s : state) :
  (forall p, p <> "" ->
     valid_url (PUBLIC_API_BASE +:+ "/ticker/" +:+ p) = true ->
     sent_by (ticker (Some p)) s =
       [Request GET (PUBLIC_API_BASE +:+ "/ticker/" +:+ p) [] []]) /\
  (forall p, p <> "" ->
     valid_url (PUBLIC_API_BASE +:+ "/trades/" +:+ p) = true ->
     sent_by (trades (Some p)) s =
       [Request GET (PUBLIC_API_BASE +:+ "/trades/" +:+ p) [] []]) /\
  ticker (Some "") = ticker None /\
  trades (Some "") = trades None /\
  sent_by (trades None) s = [Request GET (PUBLIC_API_BASE +:+ "/trades") [] []].
Proof.
  split; [|split; [|split; [reflexivity|split; [reflexivity|]]]].
  - intros p Hp Hu. apply String.eqb_neq in Hp.
    apply sent_by_one. unfold ticker. cbn [truthy]. rewrite Hp. simpl negb.
    cbv iota. rewrite public_get_run.
    change (PUBLIC_API_BASE +:+ "/" +:+ "ticker/" +:+ p)
      with (PUBLIC_API_BASE +:+ "/ticker/" +:+ p).
    rewrite Hu. reflexivity.
  - intros p Hp Hu. apply String.eqb_neq in Hp.
    apply sent_by_one. unfold trades. cbn [truthy]. rewrite Hp. simpl negb.
    cbv iota. rewrite public_get_run.
    change (PUBLIC_API_BASE +:+ "/" +:+ "trades/" +:+ p)
      with (PUBLIC_API_BASE +:+ "/trades/" +:+ p).
    rewrite Hu. reflexivity.
  - apply sent_by_one. unfold trades. rewrite public_get_run.
    match goal with
    | |- context [valid_url ?u] => replace (valid_url u) with true by reflexivity
    end.
    reflexivity.
Qed.

Lemma private_call_payload c items s :
  payload_fields c = Some items ->
  exists d',
    payload_of (call_tool c) s = Some d' /\
    (d' = items \/ exists ms, d' = items ++ [("timestamp", VInt ms)]).
Proof.
  intros Hf. unfold payload_of.
  rewrite (private_call_run c items s Hf).
  destruct (private_post_payload (fresh (dom (heap s)))
              (State (<[fresh (dom (heap s)) := items]> (heap s)) (wire s))
              items (lookup_insert_eq _ _ _))
    as [d' [Hd' [->|[ms [_ ->]]]]]; eauto.
Qed.

Ltac fields_of_call c s :=
  let d := fresh "d" in
  let Hp := fresh "Hp" in
  let ms := fresh "ms" in
  destruct (private_call_payload c _ s eq_refl) as [d [Hp [->|[ms ->]]]];
  (eexists; split; [exact Hp|]);
  repeat match goal with
  | o : option _ |- _ => destruct o
  end;
  cbn [opt_str opt_val];
  repeat match goal with
  | |- context [truthy (Some ?x)] => destruct (truthy (Some x))
  end;
  repeat split; reflexivity.

(** X9. What an optional argument puts in the payload.  An optional
    string is stored under its field when it is a non-empty string; given
    as the empty string it is left out like a missing one.  An optional
    number is stored whenever it is given, zero included. *)
Theorem optional_fields_exact s :
  (forall start end_, exists d,
     payload_of (trans_history start end_) s = Some d /\
     dict_get "start" d = (if truthy start then VStr <$> start else None) /\
     dict_get "end" d = (if truthy end_ then VStr <$> end_ else None)) /\
  (forall pair type_ price idr crypto, exists d,
     payload_of (trade pair type_ price idr crypto) s = Some d /\
     dict_get "idr" d = VFloat <$> idr /\
     dict_get "crypto" d = VFloat <$> crypto) /\
  (forall pair count from_id end_id order, exists d,
     payload_of (trade_history pair count from_id end_id order) s = Some d /\
     dict_get "pair" d = (if truthy pair then VStr <$> pair else None) /\
     dict_get "from" d = VInt <$> from_id /\
     dict_get "end" d = VInt <$> end_id) /\
  (forall pair, exists d,
     payload_of (open_orders pair) s = Some d /\
     dict_get "pair" d = (if truthy pair then VStr <$> pair else None)) /\
  (forall pair count from_id end_id order, exists d,
     payload_of (order_history pair count from_id end_id order) s = Some d /\
     dict_get "pair" d = (if truthy pair then VStr <$> pair else None) /\
     dict_get "from" d = VInt <$> from_id /\
     dict_get "end" d = VInt <$> end_id) /\
  (forall currency amount address network, exists d,
     payload_of (withdraw_fee currency amount address network) s = Some d /\
     dict_get "network" d = (if truthy network then VStr <$> network else None)) /\
  (forall currency amount address network memo, exists d,
     payload_of (withdraw_coin currency amount address network memo) s = Some d /\
     dict_get "network" d = (if truthy network then VStr <$> network else None) /\
     dict_get "memo" d = (if truthy memo then VStr <$> memo else None)) /\
  (forall amount description, exists d,
     payload_of (create_voucher amount description) s = Some d /\
     dict_get "description" d =
       (if truthy description then VStr <$> description else None)).
Proof.
  repeat match goal with |- _ /\ _ => split end; intros.
  - fields_of_call (Call_trans_history start end_) s.
  - fields_of_call (Call_trade pair type_ price idr crypto) s.
  - fields_of_call (Call_trade_history pair count from_id end_id order) s.
  - fields_of_call (Call_open_orders pair) s.
  - fields_of_call (Call_order_history pair count from_id end_id order) s.
  - fields_of_call (Call_withdraw_fee currency amount address network) s.
  - fields_of_call (Call_withdraw_coin currency amount address network memo) s.
  - fields_of_call (Call_create_voucher amount description) s.
Qed.


(** X14. An order id too long to print.  [get_order] and [cancel_order]
    given an integer of more than 4300 digits raise [ValueError] when the
    payload is serialised, and nothing is sent. *)
Theorem oversized_order_id_raises order_id s ms :
  10 ^ int_max_str_digits <= Z.abs order_id ->
  int_of_float (clock w * 1000)%float = Return ms ->
  fst (get_order order_id s) = Raise ValueError /\
  sent_by (get_order order_id) s = [] /\
  fst (cancel_order order_id s) = Raise ValueError /\
  sent_by (cancel_order order_id) s = [].
Proof.
  intros Hbig Hc.
  assert (Hs : str_of_int order_id = Raise ValueError).
  { unfold str_of_int. apply Z.leb_le in Hbig. rewrite Hbig. reflexivity. }
  assert (Hu : forall m,
             urlencode ([("method", VStr m); ("order_id", VInt order_id)]
                          ++ [("timestamp", VInt ms)]) = Raise ValueError).
  { intros m. unfold urlencode. cbn [app urlencode_items py_str].
    rewrite Hs. reflexivity. }
  pose proof (private_call_result (Call_get_order order_id) _ s eq_refl) as R1.
  pose proof (private_call_sent (Call_get_order order_id) _ s eq_refl) as S1.
  pose proof (private_call_result (Call_cancel_order order_id) _ s eq_refl) as R2.
  pose proof (private_call_sent (Call_cancel_order order_id) _ s eq_refl) as S2.
  rewrite (private_call_stamped_payload (Call_get_order order_id) _ eq_refl), Hc, Hu
    in R1, S1.
  rewrite (private_call_stamped_payload (Call_cancel_order order_id) _ eq_refl), Hc, Hu
    in R2, S2.
  cbn [call_tool] in R1, S1, R2, S2. auto.
Qed.
End Server.

(** ** Known vectors for the primitives *)

Example sha512_abc :
  HMAC.hex (SHA512.digest (encode "abc")) =
  "ddaf35a193617abacc417349ae20413112e6fa4e89a97ea20a9eeee64b55d39a2192992a274fc1a836ba3c23a3feebbd454d4423643ce80e2a9ac94fa54ca49f".
Proof. vm_compute. reflexivity. Qed.

Example sha512_empty :
  HMAC.hex (SHA512.digest []) =
  "cf83e1357eefb8bdf1542850d66d8007d620e4050b5715dc83f4a921d36ce9ce47d0d13c5d85f2b0ff8318d2877eec2f63b931bd47417a81a538327af927da3e".
Proof. vm_compute. reflexivity. Qed.

Example hmac_sha512_getInfo :
  HMAC.hexdigest (encode "s3cr3t") (encode "method=getInfo&nonce=1") =
  "84adc5876bacba72760d9ba3302afc1c5558e224afc6f89d7dd182bd1c03a53ffa08558b1bbb7562efeddb91c49318269d50589bcd729c2fa82ef1f3584cb9e0".
Proof. vm_compute. reflexivity. Qed.

Example urlencode_getInfo float_repr :
  urlencode float_repr [("method", VStr "getInfo"); ("nonce", VStr "1")] =
  Return "method=getInfo&nonce=1".
Proof. reflexivity. Qed.

Example quote_plus_reserved : quote_plus "a b&c=d/~_.-" = "a+b%26c%3Dd%2F~_.-".
Proof. reflexivity. Qed.

#[local] Set Warnings "-inexact-float".
Example float_repr_vectors :
  map PyFloat.repr
    [100; 0.5; 1e16; 1e15; 0.0001; 0.00001; 12345.678; 1e22; 5e-324;
     (-2.5); 0.30000000000000004; 1700000000.5]%float
  = [ "100.0"; "0.5"; "1e+16"; "1000000000000000.0"; "0.0001"; "1e-05";
      "12345.678"; "1e+22"; "5e-324"; "-2.5"; "0.30000000000000004";
      "1700000000.5" ].
Proof. vm_compute. reflexivity. Qed.
#[local] Set Warnings "inexact-float".

Example trade_body :
  map (fun r => decode (req_content r))
    (sent_by (trade Sample.float_repr Sample.cfg (Sample.answering 200)
                "btc_idr" "buy" 100 (Some 50000%float) None) Sample.empty)
  = ["method=trade&pair=btc_idr&type=buy&price=100.0&idr=50000.0&timestamp=1700000000500"].
Proof. vm_compute. reflexivity. Qed.

(** ** Properties across runs, secrets and environments *)

(** C4. The payload [{method: "getInfo", nonce: "1"}] under the secret
    "s3cr3t", with an API key the client can encode, goes out with the
    body [method=getInfo&nonce=1], signed with the hex HMAC-SHA512 of that
    string under that key, whose value is the known vector below. *)
Theorem getInfo_known_vector float_repr key w p s :
  heap s !! p = Some [("method", VStr "getInfo"); ("nonce", VStr "1")] ->
  is_ascii key = true ->
  exists req,
    sent_by (_private_post float_repr (Credentials key "s3cr3t") w p) s = [req] /\
    req_content req = encode "method=getInfo&nonce=1" /\
    header "Sign" (req_headers req) =
      Some (HMAC.hexdigest (encode "s3cr3t") (encode "method=getInfo&nonce=1")) /\
    header "Sign" (req_headers req) =
      Some "84adc5876bacba72760d9ba3302afc1c5558e224afc6f89d7dd182bd1c03a53ffa08558b1bbb7562efeddb91c49318269d50589bcd729c2fa82ef1f3584cb9e0".
Proof.
  intros Hp Hk.
  rewrite (private_post_sent float_repr (Credentials key "s3cr3t") w p s _ Hp).
  rewrite (stamped_keep w [("method", VStr "getInfo"); ("nonce", VStr "1")]
             eq_refl), urlencode_getInfo.
  cbn [API_KEY]. rewrite Hk.
  eexists. split; [reflexivity|].
  unfold signed_request. cbn [req_content req_headers header API_SECRET String.eqb].
  split; [reflexivity|]. split; [reflexivity|].
  cbn [header String.eqb Ascii.eqb Bool.eqb]. rewrite hmac_sha512_getInfo.
  reflexivity.
Qed.

(** C5. With fixed credentials and a payload that carries its own
    [nonce] or [timestamp], what a run sends is the same whatever the
    clock, the remote side and the rest of the state, and a second run on
    the same mapping repeats the first: body and signature are functions
    of the secret and the payload alone.  With an ASCII API key and a
    payload that serialises, each run sends that one request. *)
Theorem signing_deterministic float_repr cfg w1 w2 s1 s2 p1 p2 d :
  heap s1 !! p1 = Some d ->
  heap s2 !! p2 = Some d ->
  dict_contains "timestamp" d || dict_contains "nonce" d = true ->
  sent_by (_private_post float_repr cfg w2 p2) s2 =
    sent_by (_private_post float_repr cfg w1 p1) s1 /\
  sent_by (_private_post float_repr cfg w2 p1)
    (snd (_private_post float_repr cfg w1 p1 s1)) =
    sent_by (_private_post float_repr cfg w1 p1) s1 /\
  (forall req, In req (sent_by (_private_post float_repr cfg w1 p1) s1) ->
     exists body,
       urlencode float_repr d = Return body /\
       req_content req = encode body /\
       header "Sign" (req_headers req) =
         Some (HMAC.hexdigest (encode (API_SECRET cfg)) (encode body))) /\
  (is_ascii (API_KEY cfg) = true ->
   forall body, urlencode float_repr d = Return body ->
     sent_by (_private_post float_repr cfg w1 p1) s1 =
       [ Request POST INDODAX_API_URL
           [ ("Key", API_KEY cfg);
             ("Sign", HMAC.hexdigest (encode (API_SECRET cfg)) (encode body));
             ("Content-Type", "application/x-www-form-urlencoded") ]
           (encode body) ]).
Proof.
  intros H1 H2 Hk.
  assert (H3 : heap (snd (_private_post float_repr cfg w1 p1 s1)) !! p1 = Some d).
  { rewrite (private_post_heap float_repr cfg w1 p1 s1 d H1).
    rewrite (stamped_keep w1 d Hk), (unstamped_false d Hk). exact H1. }
  rewrite (private_post_sent float_repr cfg w1 p1 s1 d H1).
  rewrite (private_post_sent float_repr cfg w2 p2 s2 d H2).
  rewrite (private_post_sent float_repr cfg w2 p1 _ d H3).
  rewrite (stamped_keep w1 d Hk), (stamped_keep w2 d Hk).
  split; [reflexivity|]. split; [reflexivity|]. split.
  - intros req Hin.
    destruct (urlencode float_repr d) as [body|e]; [|destruct Hin].
    destruct (is_ascii (API_KEY cfg)); [|destruct Hin].
    destruct Hin as [<-|[]]. exists body. auto.
  - intros Ha body Hb. rewrite Hb, Ha. reflexivity.
Qed.

(** C9. What goes on the wire depends on the secret only through the
    HMAC key: the body is the urlencoded payload, the headers are [Key]
    (the API key), [Sign] (the HMAC of the body) and [Content-Type], and
    neither the payload, nor the body, nor whether a request is sent
    changes with the secret. *)
Theorem secret_is_only_the_hmac_key float_repr key w p s d :
  heap s !! p = Some d ->
  exists (d' : pydict) (sent : bool) (body : string),
    (sent = true -> urlencode float_repr d' = Return body) /\
    forall secret,
      heap (snd (_private_post float_repr (Credentials key secret) w p s)) !! p
        = Some d' /\
      sent_by (_private_post float_repr (Credentials key secret) w p) s =
        if sent then
          [ Request POST INDODAX_API_URL
              [ ("Key", key);
                ("Sign", HMAC.hexdigest (encode secret) (encode body));
                ("Content-Type", "application/x-www-form-urlencoded") ]
              (encode body) ]
        else [].
Proof.
  intros Hp.
  destruct (stamped w d) as [d'|e] eqn:Hs.
  - destruct (urlencode float_repr d') as [body|e] eqn:Hb.
    + exists d', (is_ascii key), body. split; [intros _; exact Hb|].
      intros secret.
      rewrite (private_post_payload_at float_repr (Credentials key secret) w p s d Hp).
      rewrite (private_post_sent float_repr (Credentials key secret) w p s d Hp).
      rewrite Hs, Hb. cbn [API_KEY]. split; [reflexivity|].
      destruct (is_ascii key); reflexivity.
    + exists d', false, "". split; [discriminate|].
      intros secret.
      rewrite (private_post_payload_at float_repr (Credentials key secret) w p s d Hp).
      rewrite (private_post_sent float_repr (Credentials key secret) w p s d Hp).
      rewrite Hs, Hb. split; reflexivity.
  - exists d, false, "". split; [discriminate|].
    intros secret.
    rewrite (private_post_payload_at float_repr (Credentials key secret) w p s d Hp).
    rewrite (private_post_sent float_repr (Credentials key secret) w p s d Hp).
    rewrite Hs. split; reflexivity.
Qed.

(** ** Start-up *)

Lemma truthy_false_iff o : truthy o = false <-> absent_or_empty o.
Proof.
  unfold truthy, absent_or_empty. destruct o as [s|].
  - destruct (String.eqb s "") eqn:E; simpl.
    + apply String.eqb_eq in E. subst s. tauto.
    + apply String.eqb_neq in E.
      split; [discriminate|]. intros [H|H]; [discriminate|].
      injection H as ->. contradiction.
  - tauto.
Qed.

Lemma truthy_some s : s <> "" -> truthy (Some s) = true.
Proof.
  intros H. unfold truthy. apply String.eqb_neq in H. rewrite H. reflexivity.
Qed.

(** C6. Importing the module fails, with no server and no tool
    registered, exactly when the API key is absent or empty, or both
    secret names are; with the primary secret name absent and the legacy
    name set, the server starts with the legacy value as its secret.
    Variables are read after [load_dotenv()]. *)
Theorem startup_fails_iff_credentials_missing dotenv env :
  let e := load_dotenv dotenv env in
  ((exists err, module_init dotenv env = Raise err) <->
     absent_or_empty (getenv e "INDODAX_API_KEY") \/
     (absent_or_empty (getenv e "INDODAX_API_SECRET") /\
      absent_or_empty (getenv e "INDODAX_SECRET_KEY"))) /\
  (forall k s,
     getenv e "INDODAX_API_KEY" = Some k -> k <> "" ->
     absent_or_empty (getenv e "INDODAX_API_SECRET") ->
     getenv e "INDODAX_SECRET_KEY" = Some s -> s <> "" ->
     module_init dotenv env = Return (Server (Credentials k s) tool_names)).
Proof.
  intros e. unfold module_init. fold e.
  split.
  - rewrite <- !truthy_false_iff. unfold py_or.
    destruct (truthy (getenv e "INDODAX_API_KEY")) eqn:Ek;
      destruct (truthy (getenv e "INDODAX_API_SECRET")) eqn:Es;
      rewrite ?Es; simpl;
      try destruct (truthy (getenv e "INDODAX_SECRET_KEY")) eqn:El; simpl;
      split;
      try (intros [err H]; discriminate H);
      try (intros _; eexists; reflexivity);
      try (intros [H|[H1 H2]]; discriminate);
      tauto.
  - intros k s Hk Hkne Hs Hl Hlne.
    apply truthy_false_iff in Hs. unfold py_or. rewrite Hs, Hk, Hl.
    rewrite (truthy_some k Hkne), (truthy_some s Hlne). reflexivity.
Qed.

(** ** Closed instances *)

Lemma startup_with_legacy_secret_witness :
  module_init ∅ {[ "INDODAX_API_KEY" := "k"; "INDODAX_SECRET_KEY" := "legacy" ]}
  = Return (Server (Credentials "k" "legacy") tool_names).
Proof.
  apply (proj2 (startup_fails_iff_credentials_missing ∅
           {[ "INDODAX_API_KEY" := "k"; "INDODAX_SECRET_KEY" := "legacy" ]})).
  - reflexivity.
  - discriminate.
  - left. reflexivity.
  - reflexivity.
  - discriminate.
Defined.

(** ** Further properties of the dispatcher and of start-up *)

(** X10. A mapping is stamped once.  After a first call has injected the
    [timestamp], a second call on the same mapping finds the key present
    and leaves the old value in place, whatever the clock says by then:
    what it sends repeats what the first call sent. *)
Theorem reused_mapping_keeps_first_timestamp float_repr cfg w1 w2 p s d ms :
  heap s !! p = Some d ->
  dict_contains "timestamp" d = false ->
  dict_contains "nonce" d = false ->
  int_of_float (clock w1 * 1000)%float = Return ms ->
  let s1 := snd (_private_post float_repr cfg w1 p s) in
  let d1 : pydict := d ++ [("timestamp", VInt ms)] in
  heap (snd (_private_post float_repr cfg w2 p s1)) !! p = Some d1 /\
  sent_by (_private_post float_repr cfg w2 p) s1
    = sent_by (_private_post float_repr cfg w1 p) s.
Proof.
  intros Hp Ht Hn Hc s1 d1.
  assert (H1 : heap s1 !! p = Some d1).
  { subst s1. rewrite (private_post_payload_at float_repr cfg w1 p s d Hp).
    rewrite (stamped_add w1 d ms Ht Hn Hc). reflexivity. }
  assert (Hk : dict_contains "timestamp" d1 || dict_contains "nonce" d1 = true).
  { subst d1. rewrite <- (dict_setitem_fresh "timestamp" (VInt ms) d Ht).
    rewrite dict_contains_setitem_eq. reflexivity. }
  split.
  - rewrite (private_post_payload_at float_repr cfg w2 p s1 d1 H1).
    rewrite (stamped_keep w2 d1 Hk). reflexivity.
  - rewrite (private_post_sent float_repr cfg w2 p s1 d1 H1).
    rewrite (private_post_sent float_repr cfg w1 p s d Hp).
    rewrite (stamped_keep w2 d1 Hk), (stamped_add w1 d ms Ht Hn Hc). reflexivity.
Qed.

(** X11. The primary secret name wins: when [INDODAX_API_SECRET] is set
    to a non-empty string the server signs with it, whatever
    [INDODAX_SECRET_KEY] holds; the API key only ever comes from
    [INDODAX_API_KEY]. *)
Theorem primary_secret_takes_precedence dotenv env k s :
  let e := load_dotenv dotenv env in
  getenv e "INDODAX_API_KEY" = Some k -> k <> "" ->
  getenv e "INDODAX_API_SECRET" = Some s -> s <> "" ->
  module_init dotenv env = Return (Server (Credentials k s) tool_names).
Proof.
  intros e Hk Hkne Hs Hsne. unfold module_init. fold e.
  unfold py_or. rewrite Hs, Hk.
  rewrite (truthy_some s Hsne). cbv iota.
  rewrite (truthy_some k Hkne), (truthy_some s Hsne). reflexivity.
Qed.

(** ** The shape of a signature *)

Lemma fold_left_invariant {A B} (f : A -> B -> A) (P : A -> Prop) :
  (forall a b, P a -> P (f a b)) ->
  forall l a, P a -> P (fold_left f l a).
Proof.
  intros Hf l. induction l as [|b l IH]; intros a Ha; simpl; [exact Ha|].
  apply IH, Hf, Ha.
Qed.

Lemma compress_length h blk :
  length h = 8%nat -> length (SHA512.compress h blk) = 8%nat.
Proof.
  intros Hh. unfold SHA512.compress.
  destruct (fold_left SHA512.round SHA512.K (SHA512.regs_of_list h, blk)) as [r ?].
  rewrite length_map, length_combine, Hh. reflexivity.
Qed.

Lemma flat_map_length_const {A B} (f : A -> list B) n l :
  (forall x, length (f x) = n) -> length (flat_map f l) = (n * length l)%nat.
Proof.
  intros Hf. induction l as [|x l IH]; simpl; [lia|].
  rewrite length_app, Hf, IH. lia.
Qed.

Lemma be_bytes_length w n : length (SHA512.be_bytes w n) = w.
Proof. unfold SHA512.be_bytes. rewrite length_map, length_seq. reflexivity. Qed.

Lemma sha512_digest_length msg : length (SHA512.digest msg) = 64%nat.
Proof.
  unfold SHA512.digest.
  rewrite (flat_map_length_const (SHA512.be_bytes 8) 8 _ (be_bytes_length 8)).
  rewrite (fold_left_invariant SHA512.compress (fun h => length h = 8%nat)
             compress_length (SHA512.blocks msg) SHA512.H0 eq_refl).
  reflexivity.
Qed.

Lemma string_of_list_length l :
  String.length (string_of_list_ascii l) = length l.
Proof. induction l; simpl; congruence. Qed.

(** X12. A signature is always 128 characters long, all of them
    lower-case hexadecimal digits, whatever the secret and the body. *)
Theorem signature_is_128_hex_digits key msg :
  String.length (HMAC.hexdigest key msg) = 128%nat /\
  Forall (fun c => In c (list_ascii_of_string "0123456789abcdef"))
    (list_ascii_of_string (HMAC.hexdigest key msg)).
Proof.
  unfold HMAC.hexdigest, HMAC.hex. split.
  - rewrite string_of_list_length.
    rewrite (flat_map_length_const _ 2) by reflexivity.
    unfold HMAC.digest. rewrite sha512_digest_length. reflexivity.
  - rewrite list_ascii_of_string_of_list_ascii.
    apply List.Forall_forall. intros c Hc.
    apply in_flat_map in Hc as [x [_ [<-|[<-|[]]]]]; apply hex_digit_in.
Qed.

Lemma sign_is_hmac_of_transmitted_body_witness :
  exists req,
    sent_by (_private_post Sample.float_repr Sample.cfg (Sample.answering 200) 0%nat)
      (Sample.holding Sample.getInfo_bare) = [req] /\
    header "Sign" (req_headers req) =
      Some (HMAC.hexdigest (encode "s3cr3t") (req_content req)) /\
    exists d' body,
      heap (snd (_private_post Sample.float_repr Sample.cfg (Sample.answering 200)
                   0%nat (Sample.holding Sample.getInfo_bare))) !! 0%nat = Some d' /\
      urlencode Sample.float_repr d' = Return body /\
      req_content req = encode body.
Proof.
  destruct (sign_is_hmac_of_transmitted_body Sample.float_repr Sample.cfg
              (Sample.answering 200) 0%nat (Sample.holding Sample.getInfo_bare)
              Sample.getInfo_bare eq_refl) as [Hsafe Hlive].
  destruct (Hlive eq_refl (ex_intro _ "method=getInfo" eq_refl)
              (or_intror (ex_intro _ 1700000000500 eq_refl))) as [req Hreq].
  exists req. split; [exact Hreq|].
  apply (Hsafe req). rewrite Hreq. left. reflexivity.
Defined.

Lemma timestamp_injected_iff_missing_witness :
  heap (snd (_private_post Sample.float_repr Sample.cfg (Sample.answering 200) 0%nat
               (Sample.holding Sample.getInfo_bare))) !! 0%nat
  = Some [("method", VStr "getInfo"); ("timestamp", VInt 1700000000500)] /\
  exists req body,
    sent_by (_private_post Sample.float_repr Sample.cfg (Sample.answering 200) 0%nat)
      (Sample.holding Sample.getInfo_bare) = [req] /\
    urlencode Sample.float_repr
      [("method", VStr "getInfo"); ("timestamp", VInt 1700000000500)]
      = Return body /\
    req_content req = encode body /\
    header "Sign" (req_headers req) =
      Some (HMAC.hexdigest (encode "s3cr3t") (encode body)).
Proof.
  destruct (timestamp_injected_iff_missing Sample.float_repr Sample.cfg
              (Sample.answering 200) 0%nat (Sample.holding Sample.getInfo_bare)
              Sample.getInfo_bare eq_refl) as [Hadd _].
  destruct (Hadd eq_refl eq_refl 1700000000500 eq_refl) as [Hheap [Hsafe Hlive]].
  split; [exact Hheap|].
  destruct (Hlive eq_refl (ex_intro _ "method=getInfo" eq_refl)) as [req Hreq].
  destruct (Hsafe req) as [body Hbody].
  - rewrite Hreq. left. reflexivity.
  - exists req, body. split; [exact Hreq|exact Hbody].
Defined.

Lemma payload_mutated_in_place_witness :
  heap (snd (_private_post Sample.float_repr Sample.cfg (Sample.answering 500) 0%nat
               (Sample.holding Sample.getInfo_bare))) !! 0%nat
  = Some [("method", VStr "getInfo"); ("timestamp", VInt 1700000000500)].
Proof.
  destruct (payload_mutated_in_place Sample.float_repr Sample.cfg
              (Sample.answering 500) 0%nat (Sample.holding Sample.getInfo_bare)
              Sample.getInfo_bare 1700000000500 eq_refl eq_refl)
    as [Hadd _].
  destruct (Hadd eq_refl eq_refl) as [d' [Hd' [-> _]]].
  exact Hd'.
Defined.

Lemma non_2xx_status_raises_witness :
  fst (call_tool Sample.float_repr Sample.cfg (Sample.answering 500) Call_get_info
         Sample.empty)
  = Raise (HTTPStatusError 500).
Proof.
  apply (non_2xx_status_raises Sample.float_repr Sample.cfg (Sample.answering 500)
           Call_get_info Sample.empty
           (signed_request Sample.cfg "method=getInfo&timestamp=1700000000500")
           (Response 500 (Some (JObject [])))).
  - vm_compute. left. reflexivity.
  - reflexivity.
  - right. reflexivity.
Defined.

Lemma getInfo_known_vector_witness :
  exists req,
    sent_by (_private_post Sample.float_repr Sample.cfg (Sample.answering 200) 0%nat)
      (Sample.holding Sample.getInfo_nonce) = [req] /\
    req_content req = encode "method=getInfo&nonce=1" /\
    header "Sign" (req_headers req) =
      Some (HMAC.hexdigest (encode "s3cr3t") (encode "method=getInfo&nonce=1")) /\
    header "Sign" (req_headers req) =
      Some "84adc5876bacba72760d9ba3302afc1c5558e224afc6f89d7dd182bd1c03a53ffa08558b1bbb7562efeddb91c49318269d50589bcd729c2fa82ef1f3584cb9e0".
Proof.
  apply (getInfo_known_vector Sample.float_repr "key" (Sample.answering 200) 0%nat
           (Sample.holding Sample.getInfo_nonce)).
  - reflexivity.
  - reflexivity.
Defined.

Lemma signing_deterministic_witness :
  sent_by (_private_post Sample.float_repr Sample.cfg (Sample.answering 500) 0%nat)
    (Sample.holding Sample.getInfo_nonce) =
  sent_by (_private_post Sample.float_repr Sample.cfg (Sample.answering 200) 0%nat)
    (Sample.holding Sample.getInfo_nonce) /\
  sent_by (_private_post Sample.float_repr Sample.cfg (Sample.answering 200) 0%nat)
    (Sample.holding Sample.getInfo_nonce) =
    [ Request POST INDODAX_API_URL
        [ ("Key", "key");
          ("Sign", HMAC.hexdigest (encode "s3cr3t") (encode "method=getInfo&nonce=1"));
          ("Content-Type", "application/x-www-form-urlencoded") ]
        (encode "method=getInfo&nonce=1") ].
Proof.
  destruct (signing_deterministic Sample.float_repr Sample.cfg (Sample.answering 200)
              (Sample.answering 500) (Sample.holding Sample.getInfo_nonce)
              (Sample.holding Sample.getInfo_nonce) 0%nat 0%nat Sample.getInfo_nonce
              eq_refl eq_refl eq_refl) as [Hsame [_ [_ Hlive]]].
  split; [exact Hsame|].
  exact (Hlive eq_refl "method=getInfo&nonce=1" eq_refl).
Defined.

Lemma secret_is_only_the_hmac_key_witness :
  exists (d' : pydict) (sent : bool) (body : string),
    (sent = true -> urlencode Sample.float_repr d' = Return body) /\
    forall secret,
      heap (snd (_private_post Sample.float_repr (Credentials "key" secret)
                   (Sample.answering 200) 0%nat
                   (Sample.holding Sample.getInfo_bare))) !! 0%nat = Some d' /\
      sent_by (_private_post Sample.float_repr (Credentials "key" secret)
                 (Sample.answering 200) 0%nat)
        (Sample.holding Sample.getInfo_bare) =
        if sent then
          [ Request POST INDODAX_API_URL
              [ ("Key", "key");
                ("Sign", HMAC.hexdigest (encode secret) (encode body));
                ("Content-Type", "application/x-www-form-urlencoded") ]
              (encode body) ]
        else [].
Proof.
  apply (secret_is_only_the_hmac_key Sample.float_repr "key" (Sample.answering 200)
           0%nat (Sample.holding Sample.getInfo_bare) Sample.getInfo_bare).
  reflexivity.
Defined.

(** C7 (as stated) fails on [trade_history()]: the caller supplies no
    [count], and the payload carries [count=100] all the same. *)
Lemma count_sent_though_not_supplied :
  payload_of (trade_history Sample.float_repr Sample.cfg (Sample.answering 200)
                None None None None None) Sample.empty
  = Some [ ("method", VStr "tradeHistory"); ("count", VInt 100);
           ("order", VStr "desc"); ("timestamp", VInt 1700000000500) ] /\
  ~ omitted_unless_supplied (@None Z) "count"
      [ ("method", VStr "tradeHistory"); ("count", VInt 100);
        ("order", VStr "desc"); ("timestamp", VInt 1700000000500) ].
Proof.
  split.
  - vm_compute. reflexivity.
  - intros [H _]. specialize (H eq_refl). discriminate H.
Qed.

(** ** Closed instances of the further properties *)

Lemma private_tool_payload_exact_witness :
  payload_of (call_tool Sample.float_repr Sample.cfg (Sample.answering 200)
                (Call_get_order 42)) Sample.empty
  = Some [ ("method", VStr "getOrder"); ("order_id", VInt 42);
           ("timestamp", VInt 1700000000500) ].
Proof.
  exact (proj1 (private_tool_payload_exact Sample.float_repr Sample.cfg
                  (Sample.answering 200) (Call_get_order 42)
                  [("method", VStr "getOrder"); ("order_id", VInt 42)]
                  Sample.empty 1700000000500 eq_refl eq_refl)).
Defined.

Lemma success_body_returned_verbatim_witness :
  fst (call_tool Sample.float_repr Sample.cfg (Sample.answering 200)
         Call_server_time Sample.empty)
  = Return (JObject []).
Proof.
  apply (success_body_returned_verbatim Sample.float_repr Sample.cfg
           (Sample.answering 200) Call_server_time Sample.empty
           (Request GET "https://indodax.com/api/server_time" [] [])
           (Response 200 (Some (JObject []))) (JObject [])).
  - left. reflexivity.
  - reflexivity.
  - split; discriminate.
  - reflexivity.
Defined.

Lemma unreachable_raises_transport_error_witness :
  fst (call_tool Sample.float_repr Sample.cfg Sample.silent
         Call_server_time Sample.empty)
  = Raise TransportError /\
  sent_by (call_tool Sample.float_repr Sample.cfg Sample.silent Call_server_time)
    Sample.empty
  = [Request GET "https://indodax.com/api/server_time" [] []].
Proof.
  apply (unreachable_raises_transport_error Sample.float_repr Sample.cfg
           Sample.silent Call_server_time Sample.empty
           (Request GET "https://indodax.com/api/server_time" [] [])).
  - left. reflexivity.
  - reflexivity.
Defined.

Lemma non_json_body_raises_witness :
  fst (call_tool Sample.float_repr Sample.cfg Sample.garbled
         Call_server_time Sample.empty)
  = Raise JSONDecodeError.
Proof.
  apply (non_json_body_raises Sample.float_repr Sample.cfg Sample.garbled
           Call_server_time Sample.empty
           (Request GET "https://indodax.com/api/server_time" [] [])
           (Response 200 None)).
  - left. reflexivity.
  - reflexivity.
  - split; discriminate.
  - reflexivity.
Defined.

Lemma requests_by_tool_kind_witness :
  req_method (Request GET "https://indodax.com/api/pairs" [] []) = GET /\
  req_headers (Request GET "https://indodax.com/api/pairs" [] []) = [] /\
  req_content (Request GET "https://indodax.com/api/pairs" [] []) = [] /\
  exists path,
    public_path Call_pairs = Some path /\
    req_url (Request GET "https://indodax.com/api/pairs" [] [])
      = PUBLIC_API_BASE +:+ "/" +:+ path.
Proof.
  apply (requests_by_tool_kind Sample.float_repr Sample.cfg (Sample.answering 200)
           Call_pairs Sample.empty
           (Request GET "https://indodax.com/api/pairs" [] [])).
  left. reflexivity.
Defined.

Lemma reused_mapping_keeps_first_timestamp_witness :
  heap (snd (_private_post Sample.float_repr Sample.cfg Sample.silent 0%nat
               (snd (_private_post Sample.float_repr Sample.cfg
                       (Sample.answering 200) 0%nat
                       (Sample.holding Sample.getInfo_bare))))) !! 0%nat
  = Some [("method", VStr "getInfo"); ("timestamp", VInt 1700000000500)].
Proof.
  exact (proj1 (reused_mapping_keeps_first_timestamp Sample.float_repr Sample.cfg
                  (Sample.answering 200) Sample.silent 0%nat
                  (Sample.holding Sample.getInfo_bare) Sample.getInfo_bare
                  1700000000500 eq_refl eq_refl eq_refl eq_refl)).
Defined.

Lemma primary_secret_takes_precedence_witness :
  module_init ∅
    {[ "INDODAX_API_KEY" := "k"; "INDODAX_API_SECRET" := "primary";
       "INDODAX_SECRET_KEY" := "legacy" ]}
  = Return (Server (Credentials "k" "primary") tool_names).
Proof.
  apply (primary_secret_takes_precedence ∅
           {[ "INDODAX_API_KEY" := "k"; "INDODAX_API_SECRET" := "primary";
              "INDODAX_SECRET_KEY" := "legacy" ]}).
  - reflexivity.
  - discriminate.
  - reflexivity.
  - discriminate.
Defined.


Lemma oversized_order_id_raises_witness :
  fst (get_order Sample.float_repr Sample.cfg (Sample.answering 200)
         (10 ^ int_max_str_digits) Sample.empty) = Raise ValueError /\
  sent_by (get_order Sample.float_repr Sample.cfg (Sample.answering 200)
             (10 ^ int_max_str_digits)) Sample.empty = [] /\
  fst (cancel_order Sample.float_repr Sample.cfg (Sample.answering 200)
         (10 ^ int_max_str_digits) Sample.empty) = Raise ValueError /\
  sent_by (cancel_order Sample.float_repr Sample.cfg (Sample.answering 200)
             (10 ^ int_max_str_digits)) Sample.empty = [].
Proof.
  apply (oversized_order_id_raises Sample.float_repr Sample.cfg
           (Sample.answering 200) (10 ^ int_max_str_digits) Sample.empty
           1700000000500).
  - rewrite Z.abs_eq; [apply Z.le_refl|].
    apply Z.pow_nonneg. discriminate.
  - reflexivity.
Defined.
